(** * The Meson build helper of conan (conans/client/build/meson.py)

    A shallow embedding of the [Meson] class: its constructor, the
    directory resolution, the cross-file synthesis, [configure], the
    environment layering of [_run] and the ninja phases, followed by the
    properties of the helper that its specification states. *)

From Stdlib Require Import String Ascii List DecimalString.
From stdpp Require Import base option list strings gmap fin_maps.

Local Open Scope string_scope.
Local Open Scope list_scope.

(** ** Python values the helper computes with *)

Module Py.

(** The double quote, which the command templates contain. *)
Definition dq : string := String (ascii_of_nat 34) EmptyString.

(** Truth value of a [str]-or-[None]: [None] and [''] are falsy. *)
Definition truthy (o : option string) : bool :=
  match o with
  | Some (String _ _) => true
  | _ => false
  end.

(** [a or b] on [str]-or-[None] values. *)
Definition or_ (a b : option string) : option string :=
  if truthy a then a else b.

(** [a or d] where [d] is a string literal. *)
Definition or_default (a : option string) (d : string) : string :=
  match a with
  | Some (String c s) => String c s
  | _ => d
  end.

(** [str(x)], also what [%s] and [{}] print: [None] prints as [None]. *)
Definition str (o : option string) : string :=
  match o with
  | Some s => s
  | None => "None"
  end.

(** [d.get(k, default)] on an optional lookup result. *)
Definition get_default (o : option string) (d : string) : string :=
  match o with
  | Some s => s
  | None => d
  end.

(** [s.split(sep)] for a one-character separator: every occurrence of
    [sep] ends a token, so the result is never empty and [''] gives
    [['']]. *)
Fixpoint split (sep : ascii) (s : string) : list string :=
  match s with
  | EmptyString => [EmptyString]
  | String c s' =>
      if Ascii.eqb c sep then EmptyString :: split sep s'
      else match split sep s' with
           | [] => [String c EmptyString]
           | t :: ts => String c t :: ts
           end
  end.

(** [sep.join(l)]. *)
Fixpoint join (sep : string) (l : list string) : string :=
  match l with
  | [] => EmptyString
  | [x] => x
  | x :: l' => x +:+ sep +:+ join sep l'
  end.

Fixpoint contains (c : ascii) (s : string) : bool :=
  match s with
  | EmptyString => false
  | String c' s' => Ascii.eqb c c' || contains c s'
  end.

Definition hex_digit (n : nat) : ascii :=
  if Nat.ltb n 10 then ascii_of_nat (48 + n) else ascii_of_nat (87 + n).

(** The characters of [s] are all ASCII. *)
Fixpoint is_ascii (s : string) : bool :=
  match s with
  | EmptyString => true
  | String c s' => Nat.ltb (nat_of_ascii c) 128 && is_ascii s'
  end.

(** One ASCII character of [repr(s)] inside the quotes [q]. *)
Definition repr_char (q c : ascii) : string :=
  let n := nat_of_ascii c in
  if Ascii.eqb c q || Ascii.eqb c "\"%char then String "\"%char (String c EmptyString)
  else if Nat.eqb n 9 then "\t"
  else if Nat.eqb n 10 then "\n"
  else if Nat.eqb n 13 then "\r"
  else if Nat.ltb n 32 || Nat.eqb n 127
       then "\x" +:+ String (hex_digit (n / 16)) (String (hex_digit (n mod 16)) EmptyString)
  else String c EmptyString.

Fixpoint repr_body (q : ascii) (s : string) : string :=
  match s with
  | EmptyString => EmptyString
  | String c s' => repr_char q c +:+ repr_body q s'
  end.

(** [repr(s)] of an ASCII [str]: single quotes, unless the string has a
    single quote and no double quote. *)
Definition repr_ascii (s : string) : string :=
  let q := if contains "'"%char s && negb (contains (ascii_of_nat 34) s)
           then ascii_of_nat 34 else "'"%char in
  String q (repr_body q s +:+ String q EmptyString).

(** [repr(s)] of a [str]. Outside ASCII, Python's Unicode database
    decides which characters are printed as they are and which are
    escaped (a no-break space is printed as [\xa0]): [repr_non_ascii]
    stands for [repr] on the strings that hold such characters. *)
Definition repr (repr_non_ascii : string -> string) (s : string) : string :=
  if is_ascii s then repr_ascii s else repr_non_ascii s.

Definition lower_char (c : ascii) : ascii :=
  let n := nat_of_ascii c in
  if Nat.leb 65 n && Nat.leb n 90 then ascii_of_nat (n + 32) else c.

(** [s.lower()] on ASCII letters. *)
Fixpoint lower (s : string) : string :=
  match s with
  | EmptyString => EmptyString
  | String c s' => String (lower_char c) (lower s')
  end.

(** Keyword lookup of [template.format(name = value, ...)]. *)
Fixpoint kwarg (name : string) (kw : list (string * string)) : option string :=
  match kw with
  | [] => None
  | (n, v) :: kw' => if String.eqb n name then Some v else kwarg name kw'
  end.

(** [template.format] with keyword arguments, for templates whose only braces are
    [{name}] fields: the text outside the fields is copied, each field
    is replaced by its keyword's value. [field] holds the name read so
    far while inside braces. A missing keyword or an unclosed brace
    gives [None] (Python raises). *)
Fixpoint format_from (field : option string) (t : string)
    (kw : list (string * string)) : option string :=
  match t with
  | EmptyString =>
      match field with
      | None => Some EmptyString
      | Some _ => None
      end
  | String c t' =>
      match field with
      | None =>
          if Ascii.eqb c "{"%char then format_from (Some EmptyString) t' kw
          else match format_from None t' kw with
               | Some r => Some (String c r)
               | None => None
               end
      | Some f =>
          if Ascii.eqb c "}"%char
          then match kwarg f kw, format_from None t' kw with
               | Some v, Some r => Some (v +:+ r)
               | _, _ => None
               end
          else format_from (Some (f +:+ String c EmptyString)) t' kw
      end
  end.

Definition format (t : string) (kw : list (string * string)) : option string :=
  format_from None t kw.

Fixpoint startswith (p s : string) : bool :=
  match p, s with
  | EmptyString, _ => true
  | String a p', String b s' => Ascii.eqb a b && startswith p' s'
  | String _ _, EmptyString => false
  end.

(** [sub in s]: [sub] occurs in [s] as a substring. *)
Fixpoint in_ (sub s : string) : bool :=
  startswith sub s ||
  match s with
  | EmptyString => false
  | String _ s' => in_ sub s'
  end.

End Py.

(** ** Python dictionaries, in insertion order *)

Module Dict.

Section Dict.
Context {V : Type}.

Fixpoint get (k : string) (d : list (string * V)) : option V :=
  match d with
  | [] => None
  | (k', v) :: d' => if String.eqb k k' then Some v else get k d'
  end.

(** [d[k] = v]: replaces the value where [k] already is, else appends. *)
Fixpoint set (k : string) (v : V) (d : list (string * V)) : list (string * V) :=
  match d with
  | [] => [(k, v)]
  | (k', v') :: d' =>
      if String.eqb k k' then (k, v) :: d' else (k', v') :: set k v d'
  end.

(** [d.update(items)]. *)
Definition update (d items : list (string * V)) : list (string * V) :=
  fold_left (fun acc kv => set (fst kv) (snd kv) acc) items d.

(** A dictionary literal [{k1: v1, ...}]: a repeated key keeps its
    first position and takes the last value. *)
Definition literal (items : list (string * V)) : list (string * V) :=
  update [] items.

End Dict.

End Dict.


(** ** Exceptions, results and the effects of a call *)

Inductive exn : Type :=
| ConanException (msg : string)
| KeyError (key : string)
| TypeError (msg : string)
| AttributeError (msg : string)
| OSError (msg : string).

Inductive result (A : Type) : Type :=
| Ok (a : A)
| Raise (e : exn).

Arguments Ok {A} a.
Arguments Raise {A} e.

(** What a call does to the outside, in the order it happens: a warning
    on the conanfile's output, a file written through [open(path, "w")],
    an environment context manager entered with its dictionary and left,
    and a command handed to [conanfile.run] with the process environment
    it sees. *)
Inductive event : Type :=
| EvWarn (msg : string)
| EvWrite (path text : string)
| EvEnter (ov : gmap string (option string)) (post : bool)
| EvLeave
| EvRun (command : string) (env : gmap string string).

(** The process environment [os.environ], the disk (directories and
    whatever the external tools leave there) and the effects so far. *)
Record world (Disk : Type) : Type := World {
  os_environ : gmap string string;
  disk : Disk;
  trace : list event
}.

Arguments World {Disk} _ _ _.
Arguments os_environ {Disk} _.
Arguments disk {Disk} _.
Arguments trace {Disk} _.

(** A computation over a state [S] that returns or raises; the state
    reached is kept in both cases, as Python keeps the mutations made
    before an exception. *)
Definition M (S A : Type) : Type := S -> result A * S.

Definition ret {S A : Type} (a : A) : M S A := fun s => (Ok a, s).

Definition raise {S A : Type} (e : exn) : M S A := fun s => (Raise e, s).

Definition bind {S A B : Type} (m : M S A) (k : A -> M S B) : M S B :=
  fun s =>
    match m s with
    | (Ok a, s') => k a s'
    | (Raise e, s') => (Raise e, s')
    end.

Definition gets {S A : Type} (f : S -> A) : M S A := fun s => (Ok (f s), s).

Definition modify {S : Type} (f : S -> S) : M S unit := fun s => (Ok tt, f s).

(** The results of [f] on the items of [l] in their order, up to the
    first call that raises. *)
Fixpoint collect {A B : Type} (f : A -> result B) (l : list A) : result (list B) :=
  match l with
  | [] => Ok []
  | a :: l' =>
      match f a with
      | Ok b =>
          match collect f l' with
          | Ok bs => Ok (b :: bs)
          | Raise e => Raise e
          end
      | Raise e => Raise e
      end
  end.

(** The position of the first item that is [None]. *)
Fixpoint first_none (items : list (option string)) : nat :=
  match items with
  | Some _ :: items' => S (first_none items')
  | _ => 0
  end.

(** [sep.join(items)] where an item may be [None]: [join] raises on the
    first item that is not a [str]. *)
Definition join_items (sep : string) (items : list (option string)) : result string :=
  match mapM id items with
  | Some strings => Ok (Py.join sep strings)
  | None =>
      Raise (TypeError ("sequence item " +:+
                        NilZero.string_of_uint (Nat.to_uint (first_none items)) +:+
                        ": expected str instance, NoneType found"))
  end.

Declare Scope py_scope.
Delimit Scope py_scope with py.
Notation "'let*' x ':=' m 'in' k" := (bind m (fun x => k))
  (at level 10, x name, m at level 100, k at level 200) : py_scope.
Notation "'let*' ' p ':=' m 'in' k" := (bind m (fun p => k))
  (at level 10, p pattern, m at level 100, k at level 200) : py_scope.
Notation "m1 ';;;' m2" := (bind m1 (fun _ => m2))
  (at level 100, m2 at level 200, right associativity) : py_scope.
Local Open Scope py_scope.

(** ** The conanfile *)

Module ConanFile.

(** The attributes of the conanfile the helper reads. A setting or an
    option that is not defined is absent from its map ([get_safe] gives
    [None]); [settings_build] is [None] when the conanfile has no such
    attribute. *)
Record t : Type := Make {
  settings : gmap string string;
  settings_build : option (gmap string string);
  options : gmap string bool;
  package_folder : option string;
  build_folder : option string;
  source_folder : option string;
  install_folder : option string;
  in_local_cache : bool;
  should_configure : bool;
  should_build : bool;
  should_install : bool;
  should_test : bool
}.

(** [settings.get_safe(name)] and [options.get_safe(name)]. *)
Definition get_safe {V : Type} (m : gmap string V) (name : string) : option V :=
  m !! name.

End ConanFile.

(** ** What the helper imports *)

(** The functions, constants and platform values [meson.py] imports from
    the rest of conan and from [os] and [platform], and the part of
    Python's [repr] that rests on the Unicode database. The helper is
    verified for every behaviour of these. *)
Class Imports (Disk : Type) : Type := {
  (** [conans.util.files.mkdir] *)
  mkdir : option string -> Disk -> result unit * Disk;
  (** [conans.util.files.get_abs_path(folder, origin)], which raises when
      it joins a relative folder to an origin that is [None] *)
  get_abs_path : option string -> option string -> result (option string);
  (** [open(path, "w")] followed by the writes and the close *)
  write_file : string -> string -> Disk -> result unit * Disk;
  (** [conans.client.build.defs_to_string] and [join_arguments] *)
  defs_to_string : list (string * string) -> string;
  join_arguments : list (option string) -> string;
  (** [conans.client.tools.oss.args_to_string] and [get_build_os_arch] *)
  args_to_string : option (list string) -> string;
  get_build_os_arch : ConanFile.t -> option string * option string;
  (** [tools.cross_building(settings)] *)
  cross_building : gmap string string -> bool;
  (** [tools.vcvars_dict(settings, output)] *)
  vcvars_dict : gmap string string -> gmap string string ->
                result (gmap string (option string));
  (** [cppstd_from_settings(settings)], which raises when the settings
      [cppstd] and [compiler.cppstd] disagree *)
  cppstd_from_settings : gmap string string -> result (option string);
  (** [AutoToolsBuildEnvironment(conanfile).vars] *)
  autotools_vars : ConanFile.t -> gmap string string -> gmap string (option string);
  (** [conanfile.run(command)] in the given process environment *)
  conanfile_run : string -> gmap string string -> Disk -> result unit * Disk;
  (** [os.pathsep], [os.path.join] and [platform.system()] *)
  os_pathsep : string;
  os_path_join : string -> string -> string;
  platform_system : string;
  (** [conans.model.build_info] *)
  DEFAULT_LIB : string;
  DEFAULT_BIN : string;
  DEFAULT_INCLUDE : string;
  (** [repr(s)] of a [str] that holds characters outside ASCII *)
  repr_non_ascii : string -> string
}.

(** ** The helper *)

Module Meson.

(** The attributes of a [Meson] object. [options] is the dictionary of
    meson options in insertion order; [build_dir] is [None] until
    [configure] or the [build_folder] setter stores a directory. *)
Record t : Type := Make {
  _conanfile : ConanFile.t;
  _settings : gmap string string;
  _append_vcvars : bool;
  exe_wrapper : string;
  _os : option string;
  _compiler : option string;
  _compiler_version : option string;
  _build_type : option string;
  backend : string;
  options : list (string * string);
  build_dir : option string
}.

Definition set_options (o : list (string * string)) (m : t) : t :=
  Make (_conanfile m) (_settings m) (_append_vcvars m) (exe_wrapper m) (_os m)
       (_compiler m) (_compiler_version m) (_build_type m) (backend m) o (build_dir m).

Definition set_build_dir (d : option string) (m : t) : t :=
  Make (_conanfile m) (_settings m) (_append_vcvars m) (exe_wrapper m) (_os m)
       (_compiler m) (_compiler_version m) (_build_type m) (backend m) (options m) d.

Definition set_build_type (b : option string) (m : t) : t :=
  Make (_conanfile m) (_settings m) (_append_vcvars m) (exe_wrapper m) (_os m)
       (_compiler m) (_compiler_version m) b (backend m) (options m) (build_dir m).

(** The text of the two [fd.write] templates of [_configure_cross_compile],
    between their triple quotes. *)
Definition build_machine_template : string :=
"
                    [build_machine]
                    system = '{os_build}'
                    cpu_family = '{build_cpu_family}'
                    cpu = '{build_cpu}'
                    endian = '{build_endian}'
                ".

Definition host_machine_template : string :=
"
                [host_machine]
                system = '{os_host}'
                cpu_family = '{cpu_family}'
                cpu = '{cpu}'
                endian = '{endian}'

                [properties]
                needs_exe_wrapper = '{exe_wrapper}'
                cpp_args = [{cxxflags}]
                c_args = [{cflags}]
                pkg_config_libdir='{libdir}'

                [binaries]
                c = '{cc}'
                cpp = '{cpp}'
                ar = '{ar}'
                ld = '{ld}'
                strip = '{strip}'
                ranlib = '{ranlib}'
                pkgconfig = 'pkg-config'
                ".

(** A method call runs on the object and the outside world together. *)
Record state (Disk : Type) : Type := State {
  self : t;
  outside : world Disk
}.

Arguments State {Disk} _ _.
Arguments self {Disk} _.
Arguments outside {Disk} _.

Section Methods.

Context {Disk : Type} `{Imports Disk}.

(** Runs a computation on the world inside a method call. *)
Definition on_world {A : Type} (m : M (world Disk) A) : M (state Disk) A :=
  fun s =>
    match m (outside s) with
    | (r, w') => (r, State (self s) w')
    end.

Definition emit (ev : event) : M (world Disk) unit :=
  modify (fun w => World (os_environ w) (disk w) (trace w ++ [ev])).

(** Runs an imported function that works on the disk. *)
Definition on_disk (f : Disk -> result unit * Disk) : M (world Disk) unit :=
  fun w =>
    match f (disk w) with
    | (r, d') => (r, World (os_environ w) d' (trace w))
    end.

(** [conanfile.output.warn(msg)]. *)
Definition warn (msg : string) : M (world Disk) unit := emit (EvWarn msg).

(** Modelled from the spec: [conans.util.conan_v2_mode.conan_v2_behavior]
    is not part of this file. A missing build type or compiler setting is
    reported as a warning through the output channel and execution
    proceeds: the call hands the message to its [v1_behavior], which is
    [conanfile.output.warn] at both call sites. *)
Definition conan_v2_behavior (msg : string) : M (world Disk) unit := warn msg.

(** Modelled from the spec: an environment overlay maps a variable name
    to a value or to unset; applying it sets the former and removes the
    latter, and leaves every other variable as it is. *)
Definition apply_overlay (ov : gmap string (option string))
    (env : gmap string string) : gmap string string :=
  merge (fun o e => match o with
                    | Some (Some v) => Some v
                    | Some None => None
                    | None => e
                    end) ov env.

(** Modelled from the spec: the context managers [environment_append] and
    [_environment_add] of [conans.client.tools.env] are not part of this
    file. An overlay is scoped: it is applied on entry, and the
    environment of before is restored when the body is left, whether it
    returned or raised. *)
Definition with_environment {A : Type} (ov : gmap string (option string))
    (post : bool) (body : M (state Disk) A) : M (state Disk) A :=
  fun s =>
    let w := outside s in
    let saved := os_environ w in
    match body (State (self s)
                  (World (apply_overlay ov saved) (disk w) (trace w ++ [EvEnter ov post]))) with
    | (r, s') =>
        (r, State (self s')
              (World saved (disk (outside s')) (trace (outside s') ++ [EvLeave])))
    end.

Definition environment_append {A : Type} (ov : gmap string (option string))
    (body : M (state Disk) A) : M (state Disk) A :=
  with_environment ov false body.

Definition _environment_add {A : Type} (ov : gmap string (option string))
    (post : bool) (body : M (state Disk) A) : M (state Disk) A :=
  with_environment ov post body.

Definition cppstd_conan2meson : list (string * string) :=
  Dict.literal
    [("98", "c++03"); ("gnu98", "gnu++03");
     ("11", "c++11"); ("gnu11", "gnu++11");
     ("14", "c++14"); ("gnu14", "gnu++14");
     ("17", "c++17"); ("gnu17", "gnu++17");
     ("20", "c++1z"); ("gnu20", "gnu++1z")].

(** The [build_type] setter. *)
Definition build_type_setter (build_type : option string) (m : t) : M (world Disk) t :=
  let settings_build_type := ConanFile.get_safe (_settings m) "build_type" in
  (if decide (build_type = settings_build_type) then ret tt
   else warn ("Set build type " +:+ Py.dq +:+ Py.str build_type +:+ Py.dq +:+
              " is different than the settings build_type " +:+
              Py.dq +:+ Py.str settings_build_type +:+ Py.dq)) ;;;
  ret (set_build_type build_type m).

(** [Meson(conanfile, backend, build_type, append_vcvars, exe_wrapper)]. *)
Definition __init__ (conanfile : ConanFile.t) (backend_arg build_type : option string)
    (append_vcvars : bool) (exe_wrapper_arg : option string) : M (world Disk) t :=
  let _ss := ConanFile.get_safe (ConanFile.settings conanfile) in
  let _so := ConanFile.get_safe (ConanFile.options conanfile) in
  let exe_wrapper := Py.or_default exe_wrapper_arg "false" in
  let os := _ss "os" in
  let compiler := _ss "compiler" in
  (if Py.truthy compiler then ret tt
   else conan_v2_behavior "compiler setting should be defined.") ;;;
  let compiler_version := _ss "compiler.version" in
  let settings_build_type := _ss "build_type" in
  let backend := Py.or_default backend_arg "ninja" in
  let options : list (string * string) := [] in
  let options :=
    match ConanFile.package_folder conanfile with
    | Some (String c f) => Dict.set "prefix" (String c f) options
    | _ => options
    end in
  let options := Dict.set "libdir" DEFAULT_LIB options in
  let options := Dict.set "bindir" DEFAULT_BIN options in
  let options := Dict.set "sbindir" DEFAULT_BIN options in
  let options := Dict.set "libexecdir" DEFAULT_BIN options in
  let options := Dict.set "includedir" DEFAULT_INCLUDE options in
  let* cppstd := (fun w => (cppstd_from_settings (ConanFile.settings conanfile), w)) in
  let* options :=
    match cppstd with
    | Some (String c f) =>
        match Dict.get (String c f) cppstd_conan2meson with
        | Some std => ret (Dict.set "cpp_std" std options)
        | None => raise (KeyError (String c f))
        end
    | _ => ret options
    end in
  let shared := _so "shared" in
  let options :=
    Dict.set "default_library"
      (match shared with
       | None | Some true => "shared"
       | Some false => "static"
       end) options in
  let options :=
    if Py.truthy os && negb (Py.in_ "Windows" (Py.str os)) then
      match _so "fPIC" with
      | Some fpic =>
          let shared := _so "shared" in
          Dict.set "b_staticpic"
            (if fpic || default false shared then "true" else "false") options
      | None => options
      end
    else options in
  let m := Make conanfile (ConanFile.settings conanfile) append_vcvars exe_wrapper
                os compiler compiler_version settings_build_type backend options None in
  if Py.truthy build_type && negb (bool_decide (build_type = settings_build_type))
  then build_type_setter build_type m
  else ret m.

(** The [build_type] and [build_folder] properties. *)
Definition build_type (m : t) : option string := _build_type m.

Definition build_folder (m : t) : option string := build_dir m.

Definition _get_dirs (m : t)
    (source_folder build_folder source_dir build_dir_arg cache_build_folder : option string)
    : result (option string * option string) :=
  let cf := _conanfile m in
  if (Py.truthy source_folder || Py.truthy build_folder) &&
     (Py.truthy source_dir || Py.truthy build_dir_arg)
  then Raise (ConanException "Use 'build_folder'/'source_folder'")
  else
    let dirs :=
      if Py.truthy source_dir || Py.truthy build_dir_arg
      then Ok (Py.or_ source_dir (ConanFile.source_folder cf),
               Py.or_ build_dir_arg (Py.or_ (build_dir m) (ConanFile.build_folder cf)))
      else
        match get_abs_path build_folder (ConanFile.build_folder cf) with
        | Ok build_ret =>
            match get_abs_path source_folder (ConanFile.source_folder cf) with
            | Ok source_ret => Ok (source_ret, build_ret)
            | Raise e => Raise e
            end
        | Raise e => Raise e
        end in
    match dirs with
    | Ok (source_ret, build_ret) =>
        if ConanFile.in_local_cache cf && Py.truthy cache_build_folder
        then
          match get_abs_path cache_build_folder (ConanFile.build_folder cf) with
          | Ok build_ret => Ok (source_ret, build_ret)
          | Raise e => Raise e
          end
        else Ok (source_ret, build_ret)
    | Raise e => Raise e
    end.

(** The [flags] property. *)
Definition flags (m : t) : string := defs_to_string (options m).

Definition arm : string * string * string := ("arm", "arm", "little").

Definition cpu_translate : list (string * (string * string * string)) :=
  Dict.literal
    [("x86", ("x86", "x86", "little"));
     ("x86_64", ("x86_64", "x86_64", "little"));
     ("x86", ("x86", "x86", "little"));
     ("ppc32be", ("ppc", "ppc", "big"));
     ("ppc32", ("ppc", "ppc", "little"));
     ("ppc64le", ("ppc64", "ppc64", "little"));
     ("ppc64", ("ppc64", "ppc64", "big"));
     ("armv4", arm);
     ("armv4i", arm);
     ("armv5el", arm);
     ("armv5hf", arm);
     ("armv6", arm);
     ("armv7", arm);
     ("armv7hf", arm);
     ("armv7s", arm);
     ("armv7k", arm);
     ("armv8_32", arm);
     ("armv8", ("aarch64", "aarch64", "little"));
     ("armv8.3", ("aarch64", "aarch64", "little"));
     ("sparc", ("sparc", "sparc", "big"));
     ("sparcv9", ("sparc64", "sparc64", "big"));
     ("mips", ("mips", "mips", "big"));
     ("mips64", ("mips64", "mips64", "big"));
     ("avr", ("avr", "avr", "little"));
     ("s390", ("s390", "s390", "big"));
     ("s390x", ("s390", "s390", "big"));
     ("wasm", ("wasm", "wasm", "little"))].

(** [cpu_translate[key]]. *)
Definition cpu_translate_item {S : Type} (key : string) : M S (string * string * string) :=
  match Dict.get key cpu_translate with
  | Some triple => ret triple
  | None => raise (KeyError key)
  end.

(** The argument of the first [fd.write]: the [build_machine] section. *)
Definition build_machine_text (triple : string * string * string) (os_build : string)
    : option string :=
  let '(build_cpu_family, build_cpu, build_endian) := triple in
  Py.format build_machine_template
    [("os_build", Py.lower os_build);
     ("build_cpu_family", build_cpu_family);
     ("build_cpu", build_cpu);
     ("build_endian", build_endian)].

(** The argument of the second [fd.write]: the [host_machine],
    [properties] and [binaries] sections. *)
Definition host_machine_text (os_host : string) (triple : string * string * string)
    (exe_wrapper cxxflags cflags : string) (libdir : option string)
    (cc cpp ar ld strip ranlib : string) : option string :=
  let '(cpu_family, cpu, endian) := triple in
  Py.format host_machine_template
    [("os_host", os_host);
     ("cpu_family", cpu_family);
     ("cpu", cpu);
     ("endian", endian);
     ("exe_wrapper", exe_wrapper);
     ("cxxflags", cxxflags);
     ("cflags", cflags);
     ("libdir", Py.str libdir);
     ("cc", cc);
     ("cpp", cpp);
     ("ar", ar);
     ("ld", ld);
     ("strip", strip);
     ("ranlib", ranlib)].

(** A formatted text where it is evaluated: [format] raises on a field
    it has no keyword for. *)
Definition format_text_of {S : Type} (text : option string) : M S string :=
  match text with
  | Some text => ret text
  | None => raise (KeyError "format")
  end.

(** The list syntax of [c_args] and [cpp_args]: the value of the
    variable, [''] when it is not set, split at each space, each token
    printed by [repr] and the tokens joined by a comma and a space. *)
Definition flags_list (var : string) (env : gmap string string) : string :=
  Py.join ", "
    (map (Py.repr repr_non_ascii)
       (Py.split " "%char (Py.get_default (env !! var) EmptyString))).

(** The dictionary [_configure_cross_compile] merges into [environ_append]
    once the cross file is written. *)
Definition cleared : list (string * option string) :=
  [("CC", None); ("CXX", None); ("CFLAGS", None); ("CXXFLAGS", None);
   ("CPPFLAGS", None); ("LDFLAGS", None)].

(** [environ_append.update(d)]. *)
Definition overlay_update (ov : gmap string (option string))
    (d : list (string * option string)) : gmap string (option string) :=
  fold_left (fun acc kv => <[fst kv := snd kv]> acc) d ov.

(** [_configure_cross_compile(cross_filename, environ_append)]. The
    dictionary [environ_append] is updated in place; the updated
    dictionary is returned to the caller, which goes on with it. When
    [os_build] is [None] the file has been opened, and so truncated,
    before [os_build.lower()] raises. *)
Definition _configure_cross_compile (cross_filename : string)
    (environ_append : gmap string (option string))
    : M (state Disk) (gmap string (option string)) :=
  let* m := gets self in
  let cf := _conanfile m in
  let* build_machine :=
    match ConanFile.settings_build cf with
    | Some settings_build =>
        let* triple := cpu_translate_item (Py.str (settings_build !! "arch")) in
        let '(os_build, _) := get_build_os_arch cf in
        ret (Some (triple, os_build))
    | None => ret None
    end in
  let os_host := Py.lower (Py.str (ConanFile.settings cf !! "os")) in
  let* '(cpu_family, cpu, endian) :=
    cpu_translate_item (Py.str (ConanFile.settings cf !! "arch")) in
  let* environ := gets (fun s => os_environ (outside s)) in
  let cflags := flags_list "CFLAGS" environ in
  let cxxflags := flags_list "CXXFLAGS" environ in
  let cc := Py.get_default (environ !! "CC") "cc" in
  let cpp := Py.get_default (environ !! "CXX") "c++" in
  let ld := Py.get_default (environ !! "LD") "ld" in
  let ar := Py.get_default (environ !! "AR") "ar" in
  let strip := Py.get_default (environ !! "STRIP") "strip" in
  let ranlib := Py.get_default (environ !! "RANLIB") "ranlib" in
  let* libdir :=
    match environ_append !! "PKG_CONFIG_PATH" with
    | Some libdir => ret libdir
    | None => raise (KeyError "PKG_CONFIG_PATH")
    end in
  let* build_text :=
    match build_machine with
    | Some (triple, Some os_build) => format_text_of (build_machine_text triple os_build)
    | Some (_, None) =>
        on_world (on_disk (write_file cross_filename EmptyString)) ;;;
        on_world (emit (EvWrite cross_filename EmptyString)) ;;;
        raise (AttributeError "'NoneType' object has no attribute 'lower'")
    | None => ret EmptyString
    end in
  let* host_text :=
    format_text_of
      (host_machine_text os_host (cpu_family, cpu, endian) (exe_wrapper m) cxxflags cflags
         libdir cc cpp ar ld strip ranlib) in
  on_world (on_disk (write_file cross_filename (build_text +:+ host_text))) ;;;
  on_world (emit (EvWrite cross_filename (build_text +:+ host_text))) ;;;
  ret (overlay_update environ_append cleared).

(** The [bt] table of [configure] with its default. *)
Definition buildtype_table : list (string * string) :=
  Dict.literal
    [("RelWithDebInfo", "debugoptimized");
     ("MinSizeRel", "release");
     ("Debug", "debug");
     ("Release", "release")].

Definition _vcvars_needed (m : t) : bool :=
  bool_decide (_compiler m = Some "Visual Studio") &&
  bool_decide (backend m = "ninja") &&
  bool_decide (platform_system = "Windows").

(** [_run(command)]: the nested [_build] runs the command under the
    variables of [AutoToolsBuildEnvironment]; the [vcvars] dictionary is
    fetched and layered around it only when [_vcvars_needed]. *)
Definition _build (command : string) : M (state Disk) unit :=
  let* m := gets self in
  let* environ := gets (fun s => os_environ (outside s)) in
  let env_build_vars := autotools_vars (_conanfile m) environ in
  environment_append env_build_vars
    (let* env := gets (fun s => os_environ (outside s)) in
     on_world (emit (EvRun command env)) ;;;
     on_world (on_disk (conanfile_run command env))).

Definition _run (command : string) : M (state Disk) unit :=
  let* m := gets self in
  if _vcvars_needed m then
    let* environ := gets (fun s => os_environ (outside s)) in
    let* vcvars := (fun s => (vcvars_dict (_settings m) environ, s)) in
    _environment_add vcvars (_append_vcvars m) (_build command)
  else _build command.

(** The value [configure] computes for [pc_paths]: the install folder
    when [pkg_config_paths] is absent or empty, else the paths made
    absolute against the install folder, all of them before [join] looks
    at the first, and joined with [os.pathsep] (which raises on a path
    that is [None]). *)
Definition pkg_config_path_value (cf : ConanFile.t) (pkg_config_paths : option (list string))
    : result (option string) :=
  match pkg_config_paths with
  | Some (f :: fs) =>
      match collect (fun f => get_abs_path (Some f) (ConanFile.install_folder cf)) (f :: fs) with
      | Ok items =>
          match join_items os_pathsep items with
          | Ok joined => Ok (Some joined)
          | Raise e => Raise e
          end
      | Raise e => Raise e
      end
  | _ => Ok (ConanFile.install_folder cf)
  end.

(** The build type in meson's words: the [bt] lookup of [configure]. *)
Definition meson_buildtype (m : t) : string :=
  Py.get_default (Dict.get (Py.str (build_type m)) buildtype_table) EmptyString.

(** The command line [configure] builds. *)
Definition meson_command (m : t) (source_dir cross_option : option string)
    (args : list string) : string :=
  let bt := meson_buildtype m in
  let build_type := "--buildtype=" +:+ bt in
  let arg_list :=
    join_arguments
      [cross_option;
       Some ("--backend=" +:+ backend m);
       Some (flags m);
       Some (args_to_string (Some args));
       Some build_type] in
  "meson " +:+ Py.dq +:+ Py.str source_dir +:+ Py.dq +:+ " " +:+
  Py.dq +:+ Py.str (build_dir m) +:+ Py.dq +:+ " " +:+ arg_list.

(** [configure(args, defs, source_dir, build_dir, pkg_config_paths,
    cache_build_folder, build_folder, source_folder,
    no_generated_cross_file)]. *)
Definition configure (args : option (list string)) (defs : option (list (string * string)))
    (source_dir build_dir_arg : option string) (pkg_config_paths : option (list string))
    (cache_build_folder build_folder source_folder : option string)
    (no_generated_cross_file : bool) : M (state Disk) unit :=
  let* m := gets self in
  let cf := _conanfile m in
  if negb (ConanFile.should_configure cf) then ret tt
  else
    let args := default [] args in
    let defs := default [] defs in
    modify (fun s => State (set_options (Dict.update (options (self s)) defs) (self s))
                           (outside s)) ;;;
    let* m := gets self in
    let* '(source_dir, build_ret) :=
      (fun s => (_get_dirs m source_folder build_folder source_dir build_dir_arg
                           cache_build_folder, s)) in
    modify (fun s => State (set_build_dir build_ret (self s)) (outside s)) ;;;
    let* m := gets self in
    let* pc_paths :=
      (fun s => (pkg_config_path_value cf pkg_config_paths, s)) in
    on_world (on_disk (mkdir (build_dir m))) ;;;
    let environ_append : gmap string (option string) := {["PKG_CONFIG_PATH" := pc_paths]} in
    let* '(cross_option, environ_append) :=
      if cross_building (ConanFile.settings cf) && negb no_generated_cross_file then
        let* cross_filename :=
          match build_dir m with
          | Some d => ret (os_path_join d "cross_file.txt")
          | None => raise (TypeError "expected str, bytes or os.PathLike object, not NoneType")
          end in
        let cross_option := "--cross-file=" +:+ cross_filename in
        let* environ_append := _configure_cross_compile cross_filename environ_append in
        ret (Some cross_option, environ_append)
      else ret (None, environ_append) in
    let command := meson_command m source_dir cross_option args in
    environment_append environ_append (_run command).

(** [_run_ninja_targets(args, build_dir, targets)]. *)
Definition _run_ninja_targets (args : option (list string)) (build_dir_arg : option string)
    (targets : option (list string)) : M (state Disk) unit :=
  let* m := gets self in
  if negb (bool_decide (backend m = "ninja"))
  then raise (ConanException "Build only supported with 'ninja' backend")
  else
    let args := default [] args in
    let build_dir :=
      Py.or_ build_dir_arg (Py.or_ (build_dir m) (ConanFile.build_folder (_conanfile m))) in
    let arg_list :=
      join_arguments
        [Some ("-C " +:+ Py.dq +:+ Py.str build_dir +:+ Py.dq);
         Some (args_to_string (Some args));
         Some (args_to_string targets)] in
    _run ("ninja " +:+ arg_list).

(** [_run_meson_command(subcommand, args, build_dir)]. *)
Definition _run_meson_command (subcommand : option string) (args : option (list string))
    (build_dir_arg : option string) : M (state Disk) unit :=
  let* m := gets self in
  let args := default [] args in
  let build_dir :=
    Py.or_ build_dir_arg (Py.or_ (build_dir m) (ConanFile.build_folder (_conanfile m))) in
  let arg_list :=
    join_arguments
      [subcommand;
       Some ("-C " +:+ Py.dq +:+ Py.str build_dir +:+ Py.dq);
       Some (args_to_string (Some args))] in
  _run ("meson " +:+ arg_list).

(** [build(args, build_dir, targets)]. *)
Definition build (args : option (list string)) (build_dir_arg : option string)
    (targets : option (list string)) : M (state Disk) unit :=
  let* m := gets self in
  if negb (ConanFile.should_build (_conanfile m)) then ret tt
  else
    (if Py.truthy (_build_type m) then ret tt
     else on_world (conan_v2_behavior "build_type setting should be defined.")) ;;;
    _run_ninja_targets args build_dir_arg targets.

(** [install(args, build_dir)]. *)
Definition install (args : option (list string)) (build_dir_arg : option string)
    : M (state Disk) unit :=
  let* m := gets self in
  if negb (ConanFile.should_install (_conanfile m)) then ret tt
  else
    on_world (on_disk (mkdir (ConanFile.package_folder (_conanfile m)))) ;;;
    if negb (Py.truthy (Dict.get "prefix" (options m)))
    then raise (ConanException
                  ("'prefix' not defined for 'meson.install()'" +:+
                   String (ascii_of_nat 10) "Make sure 'package_folder' is defined"))
    else _run_ninja_targets args build_dir_arg (Some ["install"]).

(** [test(args, build_dir, targets)]. *)
Definition test (args : option (list string)) (build_dir_arg : option string)
    (targets : option (list string)) : M (state Disk) unit :=
  let* m := gets self in
  if negb (ConanFile.should_test (_conanfile m)) then ret tt
  else
    let targets :=
      match targets with
      | Some (x :: l) => Some (x :: l)
      | _ => Some ["test"]
      end in
    _run_ninja_targets args build_dir_arg targets.

(** [meson_install(args, build_dir)]. *)
Definition meson_install (args : option (list string)) (build_dir_arg : option string)
    : M (state Disk) unit :=
  let* m := gets self in
  if negb (ConanFile.should_install (_conanfile m)) then ret tt
  else _run_meson_command (Some "install") args build_dir_arg.

(** [meson_test(args, build_dir)]. *)
Definition meson_test (args : option (list string)) (build_dir_arg : option string)
    : M (state Disk) unit :=
  let* m := gets self in
  if negb (ConanFile.should_test (_conanfile m)) then ret tt
  else _run_meson_command (Some "test") args build_dir_arg.

End Methods.

End Meson.

(** * The words of the properties *)

Import Meson.

(** The identifiers of the 32-bit ARM family: those the table binds to
    the shared [arm] triple. *)
Definition arm32_ids : list string :=
  ["armv4"; "armv4i"; "armv5el"; "armv5hf"; "armv6"; "armv7"; "armv7hf";
   "armv7s"; "armv7k"; "armv8_32"].

Definition arm64_ids : list string := ["armv8"; "armv8.3"].

(** The commands handed to [conanfile.run], in order. *)
Definition commands_run (tr : list event) : list string :=
  omap (fun ev => match ev with EvRun command _ => Some command | _ => None end) tr.

Definition unsupported_backend : exn :=
  ConanException "Build only supported with 'ninja' backend".

Definition prefix_not_defined : exn :=
  ConanException ("'prefix' not defined for 'meson.install()'" +:+
                  String (ascii_of_nat 10) "Make sure 'package_folder' is defined").

Definition LF : string := String (ascii_of_nat 10) EmptyString.

Definition indent : string := "                ".

(** The lines of the second block of the cross file, for given values of
    the fields. *)
Definition host_machine_lines (os_host cpu_family cpu endian exe_wrapper cxxflags cflags
    libdir cc cpp ar ld strip ranlib : string) : list string :=
  [ EmptyString;
    indent +:+ "[host_machine]";
    indent +:+ "system = '" +:+ os_host +:+ "'";
    indent +:+ "cpu_family = '" +:+ cpu_family +:+ "'";
    indent +:+ "cpu = '" +:+ cpu +:+ "'";
    indent +:+ "endian = '" +:+ endian +:+ "'";
    EmptyString;
    indent +:+ "[properties]";
    indent +:+ "needs_exe_wrapper = '" +:+ exe_wrapper +:+ "'";
    indent +:+ "cpp_args = [" +:+ cxxflags +:+ "]";
    indent +:+ "c_args = [" +:+ cflags +:+ "]";
    indent +:+ "pkg_config_libdir='" +:+ libdir +:+ "'";
    EmptyString;
    indent +:+ "[binaries]";
    indent +:+ "c = '" +:+ cc +:+ "'";
    indent +:+ "cpp = '" +:+ cpp +:+ "'";
    indent +:+ "ar = '" +:+ ar +:+ "'";
    indent +:+ "ld = '" +:+ ld +:+ "'";
    indent +:+ "strip = '" +:+ strip +:+ "'";
    indent +:+ "ranlib = '" +:+ ranlib +:+ "'";
    indent +:+ "pkgconfig = 'pkg-config'";
    indent ].

(** [line] is a whole line of [text], with a line before and after it. *)
Definition has_line (line text : string) : Prop :=
  exists before after, text = before +:+ LF +:+ line +:+ LF +:+ after.

(** An event that is a file write. *)
Definition is_write (ev : event) : Prop :=
  match ev with
  | EvWrite _ _ => True
  | _ => False
  end.

(** The variables [_configure_cross_compile] maps to unset. *)
Definition cleared_names : list string :=
  ["CC"; "CXX"; "CFLAGS"; "CXXFLAGS"; "CPPFLAGS"; "LDFLAGS"].

(** A character [repr] prints as it is inside single quotes: printable
    ASCII, and neither a single quote nor a backslash. *)
Definition plain_char (c : ascii) : bool :=
  negb (Ascii.eqb c "'"%char) && negb (Ascii.eqb c "\"%char) &&
  Nat.leb 32 (nat_of_ascii c) && Nat.ltb (nat_of_ascii c) 127.

Fixpoint plain (s : string) : bool :=
  match s with
  | EmptyString => true
  | String c s' => plain_char c && plain s'
  end.

(** The variables whose flags go to the cross file, each with its field. *)
Definition flag_fields : list (string * string) :=
  [("CFLAGS", "c_args"); ("CXXFLAGS", "cpp_args")].

(** The first command of a trace with the environment it ran in. *)
Fixpoint find_run (tr : list event) : option (string * gmap string string) :=
  match tr with
  | [] => None
  | EvRun c e :: _ => Some (c, e)
  | _ :: tr' => find_run tr'
  end.

(** The first file written in a trace, with its text. *)
Fixpoint find_write (tr : list event) : option (string * string) :=
  match tr with
  | [] => None
  | EvWrite f t :: _ => Some (f, t)
  | _ :: tr' => find_write tr'
  end.

Section Vocabulary.

Context {Disk : Type} `{Imports Disk}.

(** The environment the command of [_build] sees from an environment
    [env]: the autotools variables laid over it. *)
Definition build_env (m : t) (env : gmap string string) : gmap string string :=
  apply_overlay (autotools_vars (_conanfile m) env) env.

(** What [configure] has done when it reaches its last statement with
    the overlay [ov] and the cross-file option [cross]: without a cross
    file the overlay holds the pkg-config path alone and nothing was
    written; with one, the file was written next to the build directory
    and the overlay went through [_configure_cross_compile]. *)
Definition cross_plan (m : t) (env : gmap string string) (cross_wanted : bool)
    (bld pc : option string) (cross : option string) (ov : gmap string (option string))
    (writes : list event) : Prop :=
  if cross_wanted then
    exists d build_text host_text triple,
      bld = Some d /\
      cross = Some ("--cross-file=" +:+ os_path_join d "cross_file.txt") /\
      ov = overlay_update {["PKG_CONFIG_PATH" := pc]} cleared /\
      Dict.get (Py.str (ConanFile.settings (_conanfile m) !! "arch")) cpu_translate
        = Some triple /\
      host_machine_text (Py.lower (Py.str (ConanFile.settings (_conanfile m) !! "os"))) triple
        (exe_wrapper m) (flags_list "CXXFLAGS" env) (flags_list "CFLAGS" env) pc
        (Py.get_default (env !! "CC") "cc") (Py.get_default (env !! "CXX") "c++")
        (Py.get_default (env !! "AR") "ar") (Py.get_default (env !! "LD") "ld")
        (Py.get_default (env !! "STRIP") "strip")
        (Py.get_default (env !! "RANLIB") "ranlib") = Some host_text /\
      writes = [EvWrite (os_path_join d "cross_file.txt") (build_text +:+ host_text)]
  else cross = None /\ ov = {["PKG_CONFIG_PATH" := pc]} /\ writes = [].

End Vocabulary.

(** ** A concrete set of imports, to run the helper on examples *)

Module Demo.

(** A POSIX-like stand-in for the imported functions. The disk is the
    list of directories created so far. [mkdir] rejects [None] and the
    empty path as the functions of [os] it calls do; [get_abs_path]
    raises as [os.path.join] does on an origin that is [None];
    [cppstd_from_settings] raises when [cppstd] and [compiler.cppstd]
    disagree; [cross] is the answer of [cross_building], [run_ok] tells
    whether the external command succeeds and [system] is
    [platform.system()]. Text outside ASCII is taken as printable. *)
Definition imports (cross run_ok : bool) (system : string) : Imports (list string) := {|
  mkdir := fun p d =>
    match p with
    | None => (Raise (TypeError "stat: path should be string, bytes, os.PathLike or integer, not NoneType"), d)
    | Some EmptyString => (Raise (OSError "[Errno 2] No such file or directory: ''"), d)
    | Some p => (Ok tt, p :: d)
    end;
  get_abs_path := fun folder origin =>
    match folder with
    | Some (String c f) =>
        if Py.startswith "/" (String c f) then Ok (Some (String c f))
        else match origin with
             | Some o => Ok (Some (o +:+ "/" +:+ String c f))
             | None =>
                 Raise (TypeError "expected str, bytes or os.PathLike object, not NoneType")
             end
    | _ => Ok origin
    end;
  write_file := fun _ _ d => (Ok tt, d);
  defs_to_string := fun defs =>
    Py.join " " (map (fun kv => "-D" +:+ fst kv +:+ "=" +:+ Py.dq +:+ snd kv +:+ Py.dq) defs);
  join_arguments := fun l =>
    Py.join " " (filter (fun a => a <> EmptyString) (omap id l));
  args_to_string := fun l => Py.join " " (default [] l);
  get_build_os_arch := fun cf =>
    match ConanFile.settings_build cf with
    | Some sb => (sb !! "os", sb !! "arch")
    | None => (ConanFile.settings cf !! "os_build", ConanFile.settings cf !! "arch_build")
    end;
  cross_building := fun _ => cross;
  vcvars_dict := fun _ _ => Ok {["VSCMD_VER" := Some "16.0"]};
  cppstd_from_settings := fun st =>
    match st !! "cppstd", st !! "compiler.cppstd" with
    | Some (String c f), Some (String c' f') =>
        if String.eqb (String c f) (String c' f') then Ok (Some (String c' f'))
        else Raise (ConanException
                      ("The specified 'compiler.cppstd=" +:+ String c' f' +:+
                       "' and 'cppstd=" +:+ String c f +:+ "' are different."))
    | _, Some (String c' f') => Ok (Some (String c' f'))
    | Some (String c f), _ => Ok (Some (String c f))
    | _, _ => Ok None
    end;
  autotools_vars := fun _ _ => {["CPPFLAGS" := Some "-DNDEBUG"]};
  conanfile_run := fun cmd _ d =>
    if run_ok then (Ok tt, d)
    else (Raise (ConanException ("Error 1 while executing " +:+ cmd)), d);
  os_pathsep := ":";
  os_path_join := fun a b => a +:+ "/" +:+ b;
  platform_system := system;
  DEFAULT_LIB := "lib";
  DEFAULT_BIN := "bin";
  DEFAULT_INCLUDE := "include";
  repr_non_ascii := fun s => "'" +:+ s +:+ "'"
|}.

(** A Linux package built for the machine it is built on. *)
Definition native_conanfile : ConanFile.t :=
  ConanFile.Make
    (list_to_map [("os", "Linux"); ("arch", "x86_64"); ("compiler", "gcc");
                  ("build_type", "Release")])
    None
    {["shared" := true]}
    (Some "/pkg") (Some "/build") (Some "/src") (Some "/install")
    false true true true true.

(** A package built on x86_64 for an ARM64 host, with [settings_build]. *)
Definition cross_conanfile : ConanFile.t :=
  ConanFile.Make
    (list_to_map [("os", "Linux"); ("arch", "armv8"); ("compiler", "gcc");
                  ("build_type", "RelWithDebInfo")])
    (Some (list_to_map [("os", "Linux"); ("arch", "x86_64")]))
    ∅
    None (Some "/build") (Some "/src") (Some "/install")
    false true true true true.

(** The same package with the Visual Studio compiler. *)
Definition msvc_conanfile : ConanFile.t :=
  ConanFile.Make
    (list_to_map [("os", "Windows"); ("arch", "x86_64"); ("compiler", "Visual Studio");
                  ("build_type", "Debug")])
    None
    ∅
    (Some "C:/pkg") (Some "C:/build") (Some "C:/src") (Some "C:/install")
    false true true true true.

Definition world0 (env : gmap string string) : world (list string) :=
  World env [] [].

(** [Meson(conanfile, backend=backend)] in an empty process environment;
    the constructor does not raise on the conanfiles above. *)
Definition construct (conanfile : ConanFile.t) (backend : option string) : Meson.t :=
  match Meson.__init__ (H := imports false true "Linux") conanfile backend None false None
          (world0 ∅) with
  | (Ok m, _) => m
  | (Raise _, _) =>
      Meson.Make conanfile ∅ false EmptyString None None None None EmptyString [] None
  end.

(** A process environment with a cross toolchain. *)
Definition cross_environ : gmap string string :=
  {["CC" := "aarch64-gcc"; "LD" := "aarch64-ld"; "AR" := "aarch64-ar";
    "CFLAGS" := "-O2 -g"]}.

(** The cross package about to be configured. *)
Definition cross_state : Meson.state (list string) :=
  Meson.State (construct cross_conanfile None) (world0 cross_environ).

(** A process environment whose CFLAGS holds a tab between two flags. *)
Definition tab_environ : gmap string string :=
  {["CFLAGS" := "-O2" +:+ String (ascii_of_nat 9) "-g"]}.

Definition posix : Imports (list string) := imports false true "Linux".

Definition cross : Imports (list string) := imports true true "Linux".

Definition cross_failing : Imports (list string) := imports true false "Linux".

Definition windows : Imports (list string) := imports false true "Windows".

(** The cross file synthesized for the cross package. *)
Definition cross_synthesis
    : result (gmap string (option string)) * Meson.state (list string) :=
  Meson._configure_cross_compile (H := cross) "/build/cross_file.txt"
    {["PKG_CONFIG_PATH" := Some "/install"]} cross_state.

(** The state of the cross package with a tab in CFLAGS, and the cross
    file synthesized there. *)
Definition tab_state : Meson.state (list string) :=
  Meson.State (construct cross_conanfile None) (world0 tab_environ).

Definition tab_synthesis
    : result (gmap string (option string)) * Meson.state (list string) :=
  Meson._configure_cross_compile (H := cross) "/build/cross_file.txt"
    {["PKG_CONFIG_PATH" := Some "/install"]} tab_state.

(** [configure(defs={"k": "v"}, pkg_config_paths=["pc", "/abs"])] on the
    cross package, with a meson that fails. *)
Definition failing_configure : result unit * Meson.state (list string) :=
  Meson.configure (H := cross_failing) None (Some [("k", "v")]) None None
    (Some ["pc"; "/abs"]) None None None false cross_state.

(** The first command of that call, with its environment. *)
Definition failing_run : string * gmap string string :=
  default (EmptyString, ∅) (find_run (trace (Meson.outside (snd failing_configure)))).

(** The cross file that call wrote. *)
Definition failing_write : string * string :=
  default (EmptyString, EmptyString)
    (find_write (trace (Meson.outside (snd failing_configure)))).

(** The native package constructed for the "vs" backend. *)
Definition vs_state : Meson.state (list string) :=
  Meson.State (construct native_conanfile (Some "vs")) (world0 ∅).

(** The Visual Studio package, with the default backend. *)
Definition msvc_state : Meson.state (list string) :=
  Meson.State (construct msvc_conanfile None) (world0 ∅).

End Demo.

(** * The rest of the helper *)

(** ** The version of the installed meson *)

Definition newline : ascii := ascii_of_nat 10.

(** [s.split(sep, 1)]: [s] cut at the first [sep], or [s] alone. *)
Fixpoint split1 (sep : ascii) (s : string) : list string :=
  match s with
  | EmptyString => [EmptyString]
  | String c s' =>
      if Ascii.eqb c sep then [EmptyString; s']
      else match split1 sep s' with
           | [] => [String c EmptyString]
           | t :: ts => String c t :: ts
           end
  end.

(** [s.rsplit(sep, 1)]: [s] cut at the last [sep], or [s] alone. *)
Fixpoint rsplit1 (sep : ascii) (s : string) : list string :=
  match s with
  | EmptyString => [EmptyString]
  | String c s' =>
      match rsplit1 sep s' with
      | [t] => if Ascii.eqb c sep then [EmptyString; t] else [String c t]
      | t :: ts => String c t :: ts
      | [] => [String c EmptyString]
      end
  end.

(** [str(e)], which [format] prints for an exception: its message, and
    for a [KeyError] the [repr] of its key. *)
Definition exn_str (repr_non_ascii : string -> string) (e : exn) : string :=
  match e with
  | KeyError key => Py.repr repr_non_ascii key
  | ConanException msg | TypeError msg | AttributeError msg | OSError msg => msg
  end.

Section GetVersion.

Context {Bytes Version : Type}.

(** [conans.util.runners.version_runner], [conans.util.files.decode_text]
    and the constructor of [conans.model.version.Version]: what each
    returns or raises; and [repr] on text outside ASCII. *)
Variable version_runner : list string -> result Bytes.
Variable decode_text : Bytes -> result string.
Variable Version_new : string -> result Version.
Variable repr_non_ascii : string -> string.

(** The body of the [try] of [get_version]. *)
Definition get_version_body : result Version :=
  match version_runner ["meson"; "--version"] with
  | Ok out =>
      match decode_text out with
      | Ok text =>
          let version_line := hd EmptyString (split1 newline text) in
          let version_str := List.last (rsplit1 " "%char version_line) EmptyString in
          Version_new version_str
      | Raise e => Raise e
      end
  | Raise e => Raise e
  end.

(** [Meson.get_version()]: whatever the body raises is raised again as a
    [ConanException]. *)
Definition get_version : result Version :=
  match get_version_body with
  | Ok version => Ok version
  | Raise e =>
      Raise (ConanException
               ("Error retrieving Meson version: '" +:+ exn_str repr_non_ascii e +:+ "'"))
  end.

End GetVersion.

(** ** More words of the properties *)

(** What [get_version] reads the version from: the text after the last
    space of the first line of the output. *)
Definition version_text (text : string) : string :=
  List.last (rsplit1 " "%char (hd EmptyString (split1 newline text))) EmptyString.

(** The error of [_get_dirs] for directories given in both styles. *)
Definition conflicting_directories : exn :=
  ConanException "Use 'build_folder'/'source_folder'".

(** Directories are given in both styles: [source_folder] or
    [build_folder] together with [source_dir] or [build_dir]. *)
Definition both_styles (source_folder build_folder source_dir build_dir_arg : option string)
    : bool :=
  (Py.truthy source_folder || Py.truthy build_folder) &&
  (Py.truthy source_dir || Py.truthy build_dir_arg).

Definition build_indent : string := "                    ".

(** The lines of the first block of the cross file, for given values of
    the fields; the last line is the indentation before the closing
    quotes of the template. *)
Definition build_machine_lines (os_build cpu_family cpu endian : string) : list string :=
  [ EmptyString;
    build_indent +:+ "[build_machine]";
    build_indent +:+ "system = '" +:+ os_build +:+ "'";
    build_indent +:+ "cpu_family = '" +:+ cpu_family +:+ "'";
    build_indent +:+ "cpu = '" +:+ cpu +:+ "'";
    build_indent +:+ "endian = '" +:+ endian +:+ "'";
    indent ].

Section MoreVocabulary.

Context {Disk : Type} `{Imports Disk}.

(** The options a constructed adapter holds, in their order: the prefix
    when the conanfile has a package folder, the five directories, the
    C++ standard when the settings give one, the library kind, and the
    static PIC flag when the OS is set and is not a Windows and the
    conanfile has an fPIC option. *)
Definition seeded_options (cf : ConanFile.t) : list (string * string) :=
  let st := ConanFile.settings cf in
  let so := ConanFile.options cf in
  match ConanFile.package_folder cf with
  | Some (String c f) => [("prefix", String c f)]
  | _ => []
  end ++
  [("libdir", DEFAULT_LIB); ("bindir", DEFAULT_BIN); ("sbindir", DEFAULT_BIN);
   ("libexecdir", DEFAULT_BIN); ("includedir", DEFAULT_INCLUDE)] ++
  match cppstd_from_settings st with
  | Ok (Some (String c f)) =>
      match Dict.get (String c f) cppstd_conan2meson with
      | Some std => [("cpp_std", std)]
      | None => []
      end
  | _ => []
  end ++
  [("default_library",
    if bool_decide (so !! "shared" = Some false) then "static" else "shared")] ++
  if Py.truthy (st !! "os") && negb (Py.in_ "Windows" (Py.str (st !! "os"))) then
    match so !! "fPIC" with
    | Some fpic =>
        [("b_staticpic", if fpic || default false (so !! "shared") then "true" else "false")]
    | None => []
    end
  else [].

(** What stops the constructor: the error of [cppstd_from_settings], or
    the [KeyError] for a C++ standard it cannot translate. *)
Definition init_error (cf : ConanFile.t) : option exn :=
  match cppstd_from_settings (ConanFile.settings cf) with
  | Raise e => Some e
  | Ok (Some (String c f)) =>
      match Dict.get (String c f) cppstd_conan2meson with
      | Some _ => None
      | None => Some (KeyError (String c f))
      end
  | Ok _ => None
  end.

(** The warnings of the constructor: one for a missing compiler setting,
    then one for a build type that overrides the settings. *)
Definition init_warnings (cf : ConanFile.t) (build_type_arg : option string) : list event :=
  let st := ConanFile.settings cf in
  (if Py.truthy (st !! "compiler") then []
   else [EvWarn "compiler setting should be defined."]) ++
  (if Py.truthy build_type_arg && negb (bool_decide (build_type_arg = st !! "build_type"))
   then [EvWarn ("Set build type " +:+ Py.dq +:+ Py.str build_type_arg +:+ Py.dq +:+
                 " is different than the settings build_type " +:+
                 Py.dq +:+ Py.str (st !! "build_type") +:+ Py.dq)]
   else []).

(** The options the constructor sets after the C++ standard, over the
    options [o] of that moment. *)
Definition tail_options (cf : ConanFile.t) (o : list (string * string))
    : list (string * string) :=
  if Py.truthy (ConanFile.settings cf !! "os") &&
     negb (Py.in_ "Windows" (Py.str (ConanFile.settings cf !! "os")))
  then
    match ConanFile.options cf !! "fPIC" with
    | Some fpic =>
        Dict.set "b_staticpic"
          (if fpic || default false (ConanFile.options cf !! "shared") then "true" else "false")
          (Dict.set "default_library"
             match ConanFile.options cf !! "shared" with
             | Some false => "static"
             | _ => "shared"
             end o)
    | None =>
        Dict.set "default_library"
          match ConanFile.options cf !! "shared" with
          | Some false => "static"
          | _ => "shared"
          end o
    end
  else
    Dict.set "default_library"
      match ConanFile.options cf !! "shared" with
      | Some false => "static"
      | _ => "shared"
      end o.

(** [_run] gets to its command: the vcvars dictionary, where it is
    needed, is delivered. *)
Definition reaches_command (s : state Disk) : bool :=
  if _vcvars_needed (self s) then
    match vcvars_dict (_settings (self s)) (os_environ (outside s)) with
    | Ok _ => true
    | Raise _ => false
    end
  else true.

(** The directory a phase works in: the first of the [build_dir]
    argument, the directory [configure] stored and the conanfile's build
    folder that is not empty. *)
Definition phase_directory (m : t) (build_dir_arg : option string) : option string :=
  Py.or_ build_dir_arg (Py.or_ (build_dir m) (ConanFile.build_folder (_conanfile m))).

(** The command line of a ninja phase. *)
Definition ninja_command (m : t) (args : option (list string)) (build_dir_arg : option string)
    (targets : option (list string)) : string :=
  "ninja " +:+
  join_arguments
    [Some ("-C " +:+ Py.dq +:+ Py.str (phase_directory m build_dir_arg) +:+ Py.dq);
     Some (args_to_string (Some (default [] args)));
     Some (args_to_string targets)].

(** The command line of [meson_install] and [meson_test]. *)
Definition meson_subcommand (m : t) (subcommand : string) (args : option (list string))
    (build_dir_arg : option string) : string :=
  "meson " +:+
  join_arguments
    [Some subcommand;
     Some ("-C " +:+ Py.dq +:+ Py.str (phase_directory m build_dir_arg) +:+ Py.dq);
     Some (args_to_string (Some (default [] args)))].

(** The state [build] runs its command in: the one it is called in,
    after the warning about a missing build type. *)
Definition warned_build_type (s : state Disk) : state Disk :=
  if Py.truthy (_build_type (self s)) then s
  else State (self s)
         (World (os_environ (outside s)) (disk (outside s))
            (trace (outside s) ++ [EvWarn "build_type setting should be defined."])).

(** The state [install] goes on in when [mkdir] has returned: the disk is
    the one [mkdir] left. *)
Definition after_mkdir (path : option string) (s : state Disk) : state Disk :=
  State (self s)
    (World (os_environ (outside s)) (snd (mkdir path (disk (outside s)))) (trace (outside s))).

(** From [s] to [s'] at most one command was run. *)
Definition at_most_one_command (s s' : state Disk) : Prop :=
  exists cmds,
    commands_run (trace (outside s')) = commands_run (trace (outside s)) ++ cmds /\
    length cmds <= 1.

(** The first key [_configure_cross_compile] looks up and does not find:
    the build architecture (with [settings_build]), the host
    architecture, then PKG_CONFIG_PATH in the overlay. *)
Definition missing_key (cf : ConanFile.t) (environ_append : gmap string (option string))
    : option string :=
  let host_arch := Py.str (ConanFile.settings cf !! "arch") in
  let host_missing :=
    match Dict.get host_arch cpu_translate with
    | None => Some host_arch
    | Some _ =>
        match environ_append !! "PKG_CONFIG_PATH" with
        | None => Some "PKG_CONFIG_PATH"
        | Some _ => None
        end
    end in
  match ConanFile.settings_build cf with
  | Some settings_build =>
      match Dict.get (Py.str (settings_build !! "arch")) cpu_translate with
      | None => Some (Py.str (settings_build !! "arch"))
      | Some _ => host_missing
      end
  | None => host_missing
  end.

(** The text of the cross file of an adapter [m] in the process
    environment [env], line by line: the [build_machine] block when the
    conanfile has [settings_build], then the block of the host. *)
Definition cross_file_text (m : t) (env : gmap string string) (libdir : option string)
    : option string :=
  let cf := _conanfile m in
  let build_block :=
    match ConanFile.settings_build cf with
    | Some settings_build =>
        match Dict.get (Py.str (settings_build !! "arch")) cpu_translate,
              fst (get_build_os_arch cf) with
        | Some (cpu_family, cpu, endian), Some os_build =>
            Some (Py.join LF (build_machine_lines (Py.lower os_build) cpu_family cpu endian))
        | _, _ => None
        end
    | None => Some EmptyString
    end in
  match build_block, Dict.get (Py.str (ConanFile.settings cf !! "arch")) cpu_translate with
  | Some build_block, Some (cpu_family, cpu, endian) =>
      Some (build_block +:+
            Py.join LF
              (host_machine_lines (Py.lower (Py.str (ConanFile.settings cf !! "os")))
                 cpu_family cpu endian (exe_wrapper m)
                 (flags_list "CXXFLAGS" env) (flags_list "CFLAGS" env) (Py.str libdir)
                 (Py.get_default (env !! "CC") "cc") (Py.get_default (env !! "CXX") "c++")
                 (Py.get_default (env !! "AR") "ar") (Py.get_default (env !! "LD") "ld")
                 (Py.get_default (env !! "STRIP") "strip")
                 (Py.get_default (env !! "RANLIB") "ranlib")))
  | _, _ => None
  end.

End MoreVocabulary.

(** ** More concrete inputs *)

Module Samples.

(** The native package with every phase switched off. *)
Definition idle_conanfile : ConanFile.t :=
  ConanFile.Make
    (list_to_map [("os", "Linux"); ("arch", "x86_64"); ("compiler", "gcc");
                  ("build_type", "Release")])
    None
    {["shared" := true]}
    (Some "/pkg") (Some "/build") (Some "/src") (Some "/install")
    false false false false false.

Definition idle_state : Meson.state (list string) :=
  Meson.State (Demo.construct idle_conanfile None) (Demo.world0 ∅).

(** A static library with a C++ standard and position independent code. *)
Definition full_conanfile : ConanFile.t :=
  ConanFile.Make
    (list_to_map [("os", "Linux"); ("arch", "x86_64"); ("compiler", "gcc");
                  ("compiler.cppstd", "gnu17"); ("build_type", "Release")])
    None
    (list_to_map [("shared", false); ("fPIC", true)])
    (Some "/pkg") (Some "/build") (Some "/src") (Some "/install")
    false true true true true.

(** [Meson(conanfile, build_type="Debug")] on it. *)
Definition full_init : result Meson.t * world (list string) :=
  Meson.__init__ (H := Demo.posix) full_conanfile None (Some "Debug") false None
    (Demo.world0 ∅).

Definition full_adapter : Meson.t :=
  match fst full_init with
  | Ok m => m
  | Raise _ => Demo.construct full_conanfile None
  end.

(** A conanfile without a compiler, with a C++ standard the constructor
    does not know. *)
Definition odd_conanfile : ConanFile.t :=
  ConanFile.Make
    (list_to_map [("os", "Linux"); ("arch", "x86_64"); ("compiler.cppstd", "23")])
    None
    ∅
    None (Some "/build") (Some "/src") (Some "/install")
    false true true true true.

(** A conanfile whose two settings for the C++ standard disagree. *)
Definition torn_conanfile : ConanFile.t :=
  ConanFile.Make
    (list_to_map [("os", "Linux"); ("arch", "x86_64"); ("compiler", "gcc");
                  ("cppstd", "14"); ("compiler.cppstd", "17")])
    None
    ∅
    None (Some "/build") (Some "/src") (Some "/install")
    false true true true true.

(** The native package, constructed. *)
Definition native_state : Meson.state (list string) :=
  Meson.State (Demo.construct Demo.native_conanfile None) (Demo.world0 ∅).

(** A package for an architecture the table does not hold. *)
Definition riscv_conanfile : ConanFile.t :=
  ConanFile.Make
    (list_to_map [("os", "Linux"); ("arch", "riscv64"); ("compiler", "gcc");
                  ("build_type", "Release")])
    None
    ∅
    None (Some "/build") (Some "/src") (Some "/install")
    false true true true true.

Definition riscv_state : Meson.state (list string) :=
  Meson.State (Demo.construct riscv_conanfile None) (Demo.world0 ∅).

(** A Visual Studio package whose output runs on the Windows Store,
    with the default backend. *)
Definition store_conanfile : ConanFile.t :=
  ConanFile.Make
    (list_to_map [("os", "WindowsStore"); ("arch", "x86_64");
                  ("compiler", "Visual Studio"); ("build_type", "Release")])
    None
    ∅
    (Some "C:/pkg") (Some "C:/build") (Some "C:/src") (Some "C:/install")
    false true true true true.

Definition store_state : Meson.state (list string) :=
  Meson.State (Demo.construct store_conanfile None) (Demo.world0 ∅).

(** A Windows machine on which no Visual Studio is found. *)
Definition vcvars_error : exn := ConanException "VS non-existing installation".

Definition no_visual_studio : Imports (list string) := {|
  mkdir := mkdir (Imports := Demo.windows);
  get_abs_path := get_abs_path (Imports := Demo.windows);
  write_file := write_file (Imports := Demo.windows);
  defs_to_string := defs_to_string (Imports := Demo.windows);
  join_arguments := join_arguments (Imports := Demo.windows);
  args_to_string := args_to_string (Imports := Demo.windows);
  get_build_os_arch := get_build_os_arch (Imports := Demo.windows);
  cross_building := cross_building (Imports := Demo.windows);
  vcvars_dict := fun _ _ => Raise vcvars_error;
  cppstd_from_settings := cppstd_from_settings (Imports := Demo.windows);
  autotools_vars := autotools_vars (Imports := Demo.windows);
  conanfile_run := conanfile_run (Imports := Demo.windows);
  os_pathsep := os_pathsep (Imports := Demo.windows);
  os_path_join := os_path_join (Imports := Demo.windows);
  platform_system := platform_system (Imports := Demo.windows);
  DEFAULT_LIB := DEFAULT_LIB (Imports := Demo.windows);
  DEFAULT_BIN := DEFAULT_BIN (Imports := Demo.windows);
  DEFAULT_INCLUDE := DEFAULT_INCLUDE (Imports := Demo.windows);
  repr_non_ascii := repr_non_ascii (Imports := Demo.windows)
|}.

(** What [meson --version] prints, and a runner that delivers it. *)
Definition version_output : string := "0.55.3" +:+ String newline EmptyString.

Definition runner_ok (command : list string) : result string := Ok version_output.

Definition runner_missing (command : list string) : result string :=
  Raise (OSError "[Errno 2] No such file or directory: 'meson'").

Definition decode (out : string) : result string := Ok out.

Definition version_new (content : string) : result string := Ok content.

End Samples.

(** Evaluates both sides of an equation between closed terms. *)
Ltac compute_eq :=
  lazymatch goal with
  | |- _ = _ => vm_compute; reflexivity
  end.

(** * Properties *)

(** ** Dictionaries *)

Lemma dict_get_set_eq {V : Type} (k : string) (v : V) (d : list (string * V)) :
  Dict.get k (Dict.set k v d) = Some v.
Proof.
  induction d as [|[k' v'] d IH]; simpl.
  - by rewrite String.eqb_refl.
  - destruct (String.eqb k k') eqn:E; simpl.
    + by rewrite String.eqb_refl.
    + by rewrite E.
Qed.

Lemma dict_get_set_ne {V : Type} (k k' : string) (v : V) (d : list (string * V)) :
  k <> k' -> Dict.get k' (Dict.set k v d) = Dict.get k' d.
Proof.
  intros Hne. induction d as [|[k0 v0] d IH]; simpl.
  - destruct (String.eqb k' k) eqn:E; [|done].
    apply String.eqb_eq in E. congruence.
  - destruct (String.eqb k k0) eqn:E; simpl.
    + apply String.eqb_eq in E. subst k0.
      destruct (String.eqb k' k) eqn:E'; [|done].
      apply String.eqb_eq in E'. congruence.
    + by rewrite IH.
Qed.

Lemma dict_get_In {V : Type} (k : string) (v : V) (d : list (string * V)) :
  Dict.get k d = Some v -> In (k, v) d.
Proof.
  induction d as [|[k' v'] d IH]; simpl; [done|].
  destruct (String.eqb k k') eqn:E.
  - apply String.eqb_eq in E. intros [= ->]. left. by subst.
  - intros Hg. right. by apply IH.
Qed.

(** ** The architecture table *)

Lemma cpu_translate_items :
  cpu_translate =
    [("x86", ("x86", "x86", "little"));
     ("x86_64", ("x86_64", "x86_64", "little"));
     ("ppc32be", ("ppc", "ppc", "big"));
     ("ppc32", ("ppc", "ppc", "little"));
     ("ppc64le", ("ppc64", "ppc64", "little"));
     ("ppc64", ("ppc64", "ppc64", "big"));
     ("armv4", arm); ("armv4i", arm); ("armv5el", arm); ("armv5hf", arm);
     ("armv6", arm); ("armv7", arm); ("armv7hf", arm); ("armv7s", arm);
     ("armv7k", arm); ("armv8_32", arm);
     ("armv8", ("aarch64", "aarch64", "little"));
     ("armv8.3", ("aarch64", "aarch64", "little"));
     ("sparc", ("sparc", "sparc", "big"));
     ("sparcv9", ("sparc64", "sparc64", "big"));
     ("mips", ("mips", "mips", "big"));
     ("mips64", ("mips64", "mips64", "big"));
     ("avr", ("avr", "avr", "little"));
     ("s390", ("s390", "s390", "big"));
     ("s390x", ("s390", "s390", "big"));
     ("wasm", ("wasm", "wasm", "little"))].
Proof. reflexivity. Qed.

(** C6. Every identifier of the architecture table resolves to a triple
    whose endianness is "little" or "big"; the ARM64 identifiers armv8
    and armv8.3 resolve to cpu "aarch64"; every identifier of the 32-bit
    ARM family resolves to the one triple (arm, arm, little). *)
Theorem cpu_translate_endian_and_arm (id : string) :
  (forall family cpu endian,
     Dict.get id cpu_translate = Some (family, cpu, endian) ->
     endian = "little" \/ endian = "big") /\
  (In id arm64_ids ->
     exists family endian, Dict.get id cpu_translate = Some (family, "aarch64", endian)) /\
  (In id arm32_ids -> Dict.get id cpu_translate = Some ("arm", "arm", "little")).
Proof.
  split; [|split].
  - intros family cpu endian Hget. apply dict_get_In in Hget.
    rewrite cpu_translate_items in Hget. unfold arm in Hget. simpl in Hget.
    repeat (destruct Hget as [[= <- <- <- <-]|Hget]; [auto|]). done.
  - intros Hin. simpl in Hin.
    repeat (destruct Hin as [<-|Hin]; [by eexists _, _|]). done.
  - intros Hin. simpl in Hin.
    repeat (destruct Hin as [<-|Hin]; [reflexivity|]). done.
Qed.

Lemma cpu_translate_endian_and_arm_witness :
  ("big" = "little" \/ "big" = "big") /\
  (exists family endian,
     Dict.get "armv8.3" cpu_translate = Some (family, "aarch64", endian)) /\
  Dict.get "armv7hf" cpu_translate = Some ("arm", "arm", "little").
Proof.
  split; [|split].
  - apply (proj1 (cpu_translate_endian_and_arm "s390x") "s390" "s390" "big"). reflexivity.
  - apply (proj1 (proj2 (cpu_translate_endian_and_arm "armv8.3"))). simpl. tauto.
  - apply (proj2 (proj2 (cpu_translate_endian_and_arm "armv7hf"))). simpl. tauto.
Defined.

(** ** The build type *)

Lemma buildtype_table_items :
  buildtype_table =
    [("RelWithDebInfo", "debugoptimized"); ("MinSizeRel", "release");
     ("Debug", "debug"); ("Release", "release")].
Proof. reflexivity. Qed.

Lemma meson_buildtype_other (m : t) (s : string) :
  build_type m = Some s ->
  ~ In s ["RelWithDebInfo"; "MinSizeRel"; "Debug"; "Release"] ->
  meson_buildtype m = EmptyString.
Proof.
  intros Hbt Hnot. unfold meson_buildtype. rewrite Hbt, buildtype_table_items. simpl.
  repeat match goal with
         | |- context [String.eqb s ?k] =>
             let E := fresh "E" in
             destruct (String.eqb s k) eqn:E;
             [apply String.eqb_eq in E; subst s; exfalso; apply Hnot; simpl; tauto|]
         end.
  reflexivity.
Qed.

(** ** Running a command *)

Section Execution.

Context {Disk : Type} `{Imports Disk}.

Lemma _build_eq (command : string) (s : state Disk) :
  _build command s =
    let w := outside s in
    let env := build_env (self s) (os_environ w) in
    (fst (conanfile_run command env (disk w)),
     State (self s)
       (World (os_environ w) (snd (conanfile_run command env (disk w)))
          (trace w ++ [EvEnter (autotools_vars (_conanfile (self s)) (os_environ w)) false;
                       EvRun command env; EvLeave]))).
Proof.
  destruct s as [m [env d tr]].
  unfold _build, environment_append, with_environment, bind, gets, on_world, on_disk,
    emit, modify, build_env. simpl.
  destruct (conanfile_run _ _ d) as [[[]|e] d']; simpl;
    by rewrite <- !app_assoc.
Qed.

Lemma _run_eq (command : string) (s : state Disk) :
  _run command s =
    if _vcvars_needed (self s) then
      match vcvars_dict (_settings (self s)) (os_environ (outside s)) with
      | Ok vcvars => _environment_add vcvars (_append_vcvars (self s)) (_build command) s
      | Raise e => (Raise e, s)
      end
    else _build command s.
Proof.
  unfold _run, bind, gets. simpl.
  destruct (_vcvars_needed (self s)); [|done].
  by destruct (vcvars_dict _ _).
Qed.

Lemma commands_run_app (tr1 tr2 : list event) :
  commands_run (tr1 ++ tr2) = commands_run tr1 ++ commands_run tr2.
Proof. apply omap_app. Qed.


Lemma _run_inv (command : string) (s : state Disk) (r : result unit) (s' : state Disk) :
  _run command s = (r, s') ->
  self s' = self s /\ os_environ (outside s') = os_environ (outside s) /\
  exists inner,
    trace (outside s') = trace (outside s) ++ inner /\
    forall c e, In (EvRun c e) inner ->
      c = command /\ exists d, r = fst (conanfile_run c e d).
Proof.
  rewrite _run_eq. destruct (_vcvars_needed (self s)).
  - destruct (vcvars_dict _ _) as [vc|e].
    + unfold _environment_add, with_environment. rewrite _build_eq. simpl.
      intros [= <- <-]. simpl. split; [done|]. split; [done|].
      eexists. rewrite <- !app_assoc. split; [reflexivity|].
      simpl. intros c e [?|[?|[[= <- <-]|[?|[?|[]]]]]]; try done. eauto.
    + intros [= <- <-]. split; [done|]. split; [done|].
      exists []. rewrite app_nil_r. split; [done|]. by intros ? ? [].
  - rewrite _build_eq. simpl. intros [= <- <-]. simpl. split; [done|]. split; [done|].
    eexists. split; [reflexivity|].
    simpl. intros c e [?|[[= <- <-]|[?|[]]]]; try done. eauto.
Qed.

Lemma environment_append_run_inv (ov : gmap string (option string)) (command : string)
    (s : state Disk) (r : result unit) (s' : state Disk) :
  environment_append ov (_run command) s = (r, s') ->
  self s' = self s /\ os_environ (outside s') = os_environ (outside s) /\
  exists inner,
    trace (outside s') = trace (outside s) ++ EvEnter ov false :: inner /\
    forall c e, In (EvRun c e) inner ->
      c = command /\ exists d, r = fst (conanfile_run c e d).
Proof.
  unfold environment_append, with_environment.
  destruct (_run command _) as [r0 s0] eqn:Hrun. intros [= <- <-]. simpl.
  apply _run_inv in Hrun as (Hself & _ & inner & Htr & Hin). simpl in *.
  split; [done|]. split; [done|].
  exists (inner ++ [EvLeave]). rewrite Htr, <- !app_assoc. split; [done|].
  intros c e [Hc|[[=]|[]]]%in_app_or. by apply Hin.
Qed.

(** ** The ninja phases *)

Lemma _run_ninja_targets_not_ninja (args : option (list string)) (build_dir_arg : option string)
    (targets : option (list string)) (s : state Disk) :
  backend (self s) <> "ninja" ->
  _run_ninja_targets args build_dir_arg targets s = (Raise unsupported_backend, s).
Proof.
  intros Hb. unfold _run_ninja_targets, bind, gets. simpl.
  rewrite bool_decide_eq_false_2 by done. done.
Qed.

(** C8. With a backend other than "ninja", [build] (when the conanfile
    should build) and [test] (when it should test) raise the
    unsupported-backend error and hand no command to the runner; the
    only effect [build] may have is the warning about a missing build
    type. *)
Theorem non_ninja_backend_refused (args : option (list string)) (build_dir_arg : option string)
    (targets : option (list string)) (s : state Disk) :
  backend (self s) <> "ninja" ->
  (ConanFile.should_build (_conanfile (self s)) = true ->
     exists s',
       build args build_dir_arg targets s = (Raise unsupported_backend, s') /\
       self s' = self s /\
       commands_run (trace (outside s')) = commands_run (trace (outside s))) /\
  (ConanFile.should_test (_conanfile (self s)) = true ->
     test args build_dir_arg targets s = (Raise unsupported_backend, s)).
Proof.
  intros Hb. split; intros Hflag.
  - unfold build, bind, gets. simpl. rewrite Hflag. simpl.
    destruct (Py.truthy (_build_type (self s))); simpl.
    + exists s. by rewrite _run_ninja_targets_not_ninja.
    + unfold on_world, conan_v2_behavior, warn, emit, modify. simpl.
      eexists. rewrite _run_ninja_targets_not_ninja by done.
      split; [done|]. simpl. split; [done|].
      rewrite commands_run_app. simpl. by rewrite app_nil_r.
  - unfold test, bind, gets. simpl. rewrite Hflag. simpl.
    by rewrite _run_ninja_targets_not_ninja.
Qed.

(** What [install] does when the conanfile has no package folder and the
    options hold no prefix: it raises without handing a command to the
    runner. The [mkdir] of the missing folder comes first: what it raises
    is what [install] raises, and the error about the prefix is reached
    only when that [mkdir] returns. *)
Lemma install_raises_before_running (args : option (list string)) (build_dir_arg : option string)
    (s : state Disk) :
  ConanFile.should_install (_conanfile (self s)) = true ->
  ConanFile.package_folder (_conanfile (self s)) = None ->
  Dict.get "prefix" (options (self s)) = None ->
  exists e s',
    install args build_dir_arg s = (Raise e, s') /\
    self s' = self s /\
    trace (outside s') = trace (outside s) /\
    (forall e', fst (mkdir None (disk (outside s))) = Raise e' -> e = e') /\
    (fst (mkdir None (disk (outside s))) = Ok tt -> e = prefix_not_defined).
Proof.
  intros Hflag Hpf Hprefix. unfold install, bind, gets. simpl.
  rewrite Hflag, Hpf, Hprefix. simpl. unfold on_world, on_disk. simpl.
  destruct (mkdir None (disk (outside s))) as [[[]|e] d']; simpl.
  - eexists _, _. split; [done|]. simpl.
    split; [done|]. split; [done|]. split; [by intros ? [=]|done].
  - eexists _, _. split; [done|]. simpl.
    split; [done|]. split; [done|]. split; [by intros ? [= ->]|by intros [=]].
Qed.

End Execution.

(** ** The text of the cross file *)

Lemma append_assoc (a b c : string) : (a +:+ b) +:+ c = a +:+ (b +:+ c).
Proof.
  induction a as [|x a IH]; [done|].
  change (String x ((a +:+ b) +:+ c) = String x (a +:+ (b +:+ c))). by f_equal.
Qed.

Lemma join_app (sep : string) (l1 l2 : list string) :
  l1 <> [] -> l2 <> [] ->
  Py.join sep (l1 ++ l2) = Py.join sep l1 +:+ sep +:+ Py.join sep l2.
Proof.
  intros H1 H2. induction l1 as [|x l1 IH]; [done|].
  destruct l1 as [|y l1].
  - simpl. destruct l2; [done|done].
  - change ((x :: y :: l1) ++ l2) with (x :: (y :: l1) ++ l2).
    change (Py.join sep (x :: (y :: l1) ++ l2))
      with (x +:+ sep +:+ Py.join sep ((y :: l1) ++ l2)).
    rewrite IH by done.
    change (Py.join sep (x :: y :: l1)) with (x +:+ sep +:+ Py.join sep (y :: l1)).
    by rewrite !append_assoc.
Qed.

Lemma has_line_join (line : string) (l1 l2 : list string) :
  l1 <> [] -> l2 <> [] -> has_line line (Py.join LF (l1 ++ line :: l2)).
Proof.
  intros H1 H2. exists (Py.join LF l1), (Py.join LF l2).
  rewrite join_app by done.
  change (line :: l2) with ([line] ++ l2). by rewrite join_app.
Qed.

Lemma has_line_prefix (line pre text : string) :
  has_line line text -> has_line line (pre +:+ text).
Proof.
  intros (before & after & ->). exists (pre +:+ before), after.
  by rewrite append_assoc.
Qed.

Lemma host_machine_text_lines (os_host cpu_family cpu endian exe_wrapper cxxflags cflags : string)
    (libdir : option string) (cc cpp ar ld strip ranlib : string) :
  host_machine_text os_host (cpu_family, cpu, endian) exe_wrapper cxxflags cflags libdir
    cc cpp ar ld strip ranlib =
  Some (Py.join LF
          (host_machine_lines os_host cpu_family cpu endian exe_wrapper cxxflags cflags
             (Py.str libdir) cc cpp ar ld strip ranlib)).
Proof.
  unfold host_machine_lines, indent, LF. cbn [Py.join].
  rewrite !append_assoc. reflexivity.
Qed.

Section CrossFile.

Context {Disk : Type} `{Imports Disk}.

#[local] Opaque host_machine_text build_machine_text cpu_translate flags_list
  overlay_update Py.lower Py.str Py.get_default.

Lemma _configure_cross_compile_inv (cross_filename : string)
    (environ_append : gmap string (option string)) (s : state Disk)
    (r : result (gmap string (option string))) (s' : state Disk) :
  _configure_cross_compile cross_filename environ_append s = (r, s') ->
  let m := self s in
  let cf := _conanfile m in
  let env := os_environ (outside s) in
  self s' = m /\ os_environ (outside s') = env /\
  match r with
  | Ok environ_append' =>
      environ_append' = overlay_update environ_append cleared /\
      exists build_text host_text triple libdir,
        Dict.get (Py.str (ConanFile.settings cf !! "arch")) cpu_translate = Some triple /\
        environ_append !! "PKG_CONFIG_PATH" = Some libdir /\
        host_machine_text (Py.lower (Py.str (ConanFile.settings cf !! "os"))) triple
          (exe_wrapper m) (flags_list "CXXFLAGS" env) (flags_list "CFLAGS" env) libdir
          (Py.get_default (env !! "CC") "cc") (Py.get_default (env !! "CXX") "c++")
          (Py.get_default (env !! "AR") "ar") (Py.get_default (env !! "LD") "ld")
          (Py.get_default (env !! "STRIP") "strip")
          (Py.get_default (env !! "RANLIB") "ranlib") = Some host_text /\
        trace (outside s') = trace (outside s) ++ [EvWrite cross_filename (build_text +:+ host_text)]
  | Raise e =>
      trace (outside s') = trace (outside s) \/
      trace (outside s') = trace (outside s) ++ [EvWrite cross_filename EmptyString]
  end.
Proof.
  destruct s as [m [env d tr]]. simpl.
  unfold _configure_cross_compile, cpu_translate_item, format_text_of, on_world, on_disk,
    emit, modify.
  unfold bind, gets, ret, raise. simpl.
  intros Hrun.
  repeat (case_match; simplify_eq/=).
  all: try (split; [done|split; [done|]]).
  all: try (split; [done|]; eexists _, _, _, _; done).
  all: try (by left).
  all: try (by right).
Qed.

#[local] Opaque _configure_cross_compile _run meson_command _get_dirs
  pkg_config_path_value Dict.update.

Lemma configure_inv (args : option (list string)) (defs : option (list (string * string)))
    (source_dir build_dir_arg : option string) (pkg_config_paths : option (list string))
    (cache_build_folder build_folder source_folder : option string)
    (no_generated_cross_file : bool) (s : state Disk) (r : result unit) (s' : state Disk) :
  configure args defs source_dir build_dir_arg pkg_config_paths cache_build_folder
    build_folder source_folder no_generated_cross_file s = (r, s') ->
  ConanFile.should_configure (_conanfile (self s)) = true ->
  let cf := _conanfile (self s) in
  let m1 := set_options (Dict.update (options (self s)) (default [] defs)) (self s) in
  (exists e,
     _get_dirs m1 source_folder build_folder source_dir build_dir_arg cache_build_folder
       = Raise e /\
     r = Raise e /\ s' = State m1 (outside s)) \/
  (exists src bld,
     _get_dirs m1 source_folder build_folder source_dir build_dir_arg cache_build_folder
       = Ok (src, bld) /\
     let m2 := set_build_dir bld m1 in
     self s' = m2 /\ os_environ (outside s') = os_environ (outside s) /\
     ((exists e writes,
         r = Raise e /\ trace (outside s') = trace (outside s) ++ writes /\
         Forall is_write writes) \/
      (exists pc cross ov writes s2,
         pkg_config_path_value cf pkg_config_paths = Ok pc /\
         self s2 = m2 /\ os_environ (outside s2) = os_environ (outside s) /\
         trace (outside s2) = trace (outside s) ++ writes /\
         cross_plan m2 (os_environ (outside s))
           (cross_building (ConanFile.settings cf) && negb no_generated_cross_file)
           bld pc cross ov writes /\
         environment_append ov (_run (meson_command m2 src cross (default [] args))) s2
           = (r, s')))).
Proof.
  destruct s as [m [env d tr]]. simpl. intros Hrun Hflag.
  unfold configure in Hrun. unfold bind at 1 in Hrun. unfold gets at 1 in Hrun.
  simpl in Hrun. rewrite Hflag in Hrun. simpl in Hrun.
  unfold bind, gets, modify, ret, raise, on_world, on_disk in Hrun. simpl in Hrun.
  destruct (_get_dirs _ _ _ _ _ _) as [[src bld]|e] eqn:Hdirs; simplify_eq/=;
    [right; exists src, bld; split; [done|]|left; by exists e].
  destruct (pkg_config_path_value _ _) as [pc|e] eqn:Hpc; simplify_eq/=.
  2:{ split; [done|]. split; [done|]. left. exists e, []. by rewrite app_nil_r. }
  destruct (mkdir bld d) as [[[]|e] d1] eqn:Hmk; simplify_eq/=.
  2:{ split; [done|]. split; [done|]. left. exists e, []. by rewrite app_nil_r. }
  destruct (cross_building _ && negb _) eqn:Hcross; simpl in Hrun.
  - destruct bld as [bd|]; simplify_eq/=.
    2:{ split; [done|]. split; [done|]. left. eexists _, []. by rewrite app_nil_r. }
    destruct (_configure_cross_compile _ _ _) as [[ov|e] s2] eqn:Hcc.
    + apply _configure_cross_compile_inv in Hcc
        as (Hs2 & He2 & -> & bt & ht & triple & libdir & Harch & Hlib & Hhost & Htr).
      simpl in *. rewrite lookup_singleton_eq in Hlib. injection Hlib as <-.
      pose proof Hrun as Hinv.
      apply environment_append_run_inv in Hinv as (Hs' & He' & _).
      rewrite Hs', Hs2, He', He2. split; [done|]. split; [done|]. right.
      exists pc, (Some ("--cross-file=" +:+ os_path_join bd "cross_file.txt")),
        (overlay_update {["PKG_CONFIG_PATH" := pc]} cleared),
        [EvWrite (os_path_join bd "cross_file.txt") (bt +:+ ht)], s2.
      repeat (split; [done|]). split; [|done].
      exists bd, bt, ht, triple. done.
    + apply _configure_cross_compile_inv in Hcc as (Hs2 & He2 & Htr). simpl in *.
      injection Hrun as <- <-. split; [done|]. split; [done|]. left.
      destruct Htr as [Htr|Htr].
      * exists e, []. by rewrite app_nil_r.
      * exists e, [EvWrite (os_path_join bd "cross_file.txt") EmptyString].
        split; [done|]. split; [done|]. by repeat constructor.
  - pose proof Hrun as Hinv.
    apply environment_append_run_inv in Hinv as (Hs' & He' & _). simpl in *.
    split; [done|]. split; [done|]. right.
    eexists pc, None, _, [], _. split; [done|]. split; [|split; [|split; [|split; [|exact Hrun]]]];
      simpl; try done. by rewrite app_nil_r.
Qed.

Lemma cleared_lookup (ov : gmap string (option string)) (k : string) :
  overlay_update ov cleared !! k =
    if bool_decide (In k ["CC"; "CXX"; "CFLAGS"; "CXXFLAGS"; "CPPFLAGS"; "LDFLAGS"])
    then Some None else ov !! k.
Proof.
  Local Transparent overlay_update.
  unfold overlay_update, cleared. cbn [fold_left fst snd].
  case_bool_decide as Hin.
  - cbn [In] in Hin.
    destruct Hin as [<-|[<-|[<-|[<-|[<-|[<-|[]]]]]]]; by simplify_map_eq.
  - cbn [In] in Hin.
    rewrite !lookup_insert_ne; [done|..]; intros <-; apply Hin; tauto.
  Local Opaque overlay_update.
Qed.

(** The text a successful synthesis writes holds the lines of the
    properties section for the adapter's exe wrapper, the flags of the
    process environment and the value of PKG_CONFIG_PATH in the overlay. *)
Lemma cross_file_properties (cross_filename : string)
    (environ_append : gmap string (option string)) (s : state Disk)
    (environ_append' : gmap string (option string)) (s' : state Disk) :
  _configure_cross_compile cross_filename environ_append s = (Ok environ_append', s') ->
  exists text libdir,
    trace (outside s') = trace (outside s) ++ [EvWrite cross_filename text] /\
    environ_append !! "PKG_CONFIG_PATH" = Some libdir /\
    has_line (indent +:+ "needs_exe_wrapper = '" +:+ exe_wrapper (self s) +:+ "'") text /\
    has_line (indent +:+ "cpp_args = [" +:+
              flags_list "CXXFLAGS" (os_environ (outside s)) +:+ "]") text /\
    has_line (indent +:+ "c_args = [" +:+
              flags_list "CFLAGS" (os_environ (outside s)) +:+ "]") text /\
    has_line (indent +:+ "pkg_config_libdir='" +:+ Py.str libdir +:+ "'") text.
Proof.
  intros Hcc.
  apply _configure_cross_compile_inv in Hcc
    as (_ & _ & _ & bt & ht & [[family cpu] endian] & libdir & _ & Hlib & Hhost & Htr).
  rewrite host_machine_text_lines in Hhost. injection Hhost as <-.
  exists (bt +:+ Py.join LF
            (host_machine_lines (Py.lower (Py.str (ConanFile.settings (_conanfile (self s)) !! "os")))
               family cpu endian (exe_wrapper (self s))
               (flags_list "CXXFLAGS" (os_environ (outside s)))
               (flags_list "CFLAGS" (os_environ (outside s))) (Py.str libdir)
               (Py.get_default (os_environ (outside s) !! "CC") "cc")
               (Py.get_default (os_environ (outside s) !! "CXX") "c++")
               (Py.get_default (os_environ (outside s) !! "AR") "ar")
               (Py.get_default (os_environ (outside s) !! "LD") "ld")
               (Py.get_default (os_environ (outside s) !! "STRIP") "strip")
               (Py.get_default (os_environ (outside s) !! "RANLIB") "ranlib"))), libdir.
  split; [done|]. split; [done|].
  unfold host_machine_lines.
  repeat split; apply has_line_prefix.
  - refine (has_line_join _ [_; _; _; _; _; _; _; _] _ _ _); done.
  - refine (has_line_join _ [_; _; _; _; _; _; _; _; _] _ _ _); done.
  - refine (has_line_join _ [_; _; _; _; _; _; _; _; _; _] _ _ _); done.
  - refine (has_line_join _ [_; _; _; _; _; _; _; _; _; _; _] _ _ _); done.
Qed.

End CrossFile.

(** ** Flags lists *)

Lemma split_nonempty (sep : ascii) (s : string) : Py.split sep s <> [].
Proof.
  destruct s as [|c s]; simpl; [done|].
  destruct (Ascii.eqb c sep); [done|]. by destruct (Py.split sep s).
Qed.

Lemma join_cons_char (sep : string) (c : ascii) (t : string) (ts : list string) :
  Py.join sep (String c t :: ts) = String c (Py.join sep (t :: ts)).
Proof. by destruct ts. Qed.

(** Splitting at a separator loses nothing: the tokens joined by the
    separator are the string again. *)
Lemma join_split (sep : ascii) (s : string) :
  Py.join (String sep EmptyString) (Py.split sep s) = s.
Proof.
  induction s as [|c s IH]; [done|].
  cbn [Py.split]. destruct (Ascii.eqb c sep) eqn:E.
  - apply Ascii.eqb_eq in E. subst c.
    pose proof (split_nonempty sep s) as Hne.
    destruct (Py.split sep s) as [|t ts] eqn:Hs; [done|].
    change (Py.join (String sep EmptyString) (EmptyString :: t :: ts))
      with (String sep (Py.join (String sep EmptyString) (t :: ts))).
    by rewrite IH.
  - pose proof (split_nonempty sep s) as Hne.
    destruct (Py.split sep s) as [|t ts] eqn:Hs; [done|].
    by rewrite join_cons_char, IH.
Qed.

(** No token of a split holds the separator. *)
Lemma split_tokens (sep : ascii) (s : string) :
  Forall (fun t => Py.contains sep t = false) (Py.split sep s).
Proof.
  induction s as [|c s IH]; [by repeat constructor|].
  cbn [Py.split]. destruct (Ascii.eqb c sep) eqn:E.
  - by constructor.
  - destruct (Py.split sep s) as [|t ts]; [repeat constructor; simpl|].
    + rewrite Ascii.eqb_sym, E. done.
    + inversion IH as [|? ? Ht Hts]; subst. constructor; [|done].
      simpl. by rewrite Ascii.eqb_sym, E, Ht.
Qed.

Lemma repr_char_plain (c : ascii) :
  plain_char c = true -> Py.repr_char "'"%char c = String c EmptyString.
Proof.
  unfold plain_char, Py.repr_char.
  rewrite !andb_true_iff, !negb_true_iff, Nat.leb_le, Nat.ltb_lt.
  intros [[[Hq Hb] Hge] H127]. rewrite Hq, Hb. cbn [orb].
  destruct (Nat.eqb_spec (nat_of_ascii c) 9) as [E|_]; [lia|].
  destruct (Nat.eqb_spec (nat_of_ascii c) 10) as [E|_]; [lia|].
  destruct (Nat.eqb_spec (nat_of_ascii c) 13) as [E|_]; [lia|].
  destruct (Nat.ltb_spec (nat_of_ascii c) 32) as [E|_]; [lia|].
  destruct (Nat.eqb_spec (nat_of_ascii c) 127) as [E|_]; [lia|]. done.
Qed.

Lemma repr_body_plain (s t : string) :
  plain s = true -> Py.repr_body "'"%char s +:+ t = s +:+ t.
Proof.
  induction s as [|c s IH]; [done|]. cbn [plain Py.repr_body].
  rewrite andb_true_iff. intros [Hc Hs].
  rewrite repr_char_plain by done.
  change (String c (Py.repr_body "'"%char s +:+ t) = String c (s +:+ t)).
  by rewrite IH.
Qed.

Lemma contains_quote_plain (s : string) :
  plain s = true -> Py.contains "'"%char s = false.
Proof.
  induction s as [|c s IH]; [done|]. cbn [plain Py.contains].
  rewrite andb_true_iff. intros [Hc Hs]. rewrite IH by done.
  unfold plain_char in Hc. rewrite !andb_true_iff, !negb_true_iff in Hc.
  destruct Hc as [[[Hq _] _] _]. by rewrite Ascii.eqb_sym, Hq.
Qed.

Lemma plain_is_ascii (s : string) : plain s = true -> Py.is_ascii s = true.
Proof.
  induction s as [|c s IH]; [done|]. cbn [plain Py.is_ascii].
  rewrite !andb_true_iff. intros [Hc Hs]. split; [|by apply IH].
  unfold plain_char in Hc. rewrite !andb_true_iff, Nat.ltb_lt in Hc.
  apply Nat.ltb_lt. lia.
Qed.

(** [repr] puts a plain token between single quotes. *)
Lemma repr_plain (repr_non_ascii : string -> string) (s : string) :
  plain s = true -> Py.repr repr_non_ascii s = "'" +:+ s +:+ "'".
Proof.
  intros Hs. unfold Py.repr, Py.repr_ascii. rewrite plain_is_ascii by done.
  rewrite contains_quote_plain by done. cbn [andb].
  change ("'" +:+ s +:+ "'") with (String "'"%char (s +:+ "'")).
  by rewrite repr_body_plain.
Qed.

Section CrossFileClaims.

Context {Disk : Type} `{Imports Disk}.

#[local] Opaque cppstd_conan2meson Dict.set Py.in_.

Lemma flags_list_empty (var : string) (env : gmap string string) :
  Py.get_default (env !! var) EmptyString = EmptyString ->
  flags_list var env = "''".
Proof. unfold flags_list. by intros ->. Qed.

Lemma __init___exe_wrapper (conanfile : ConanFile.t) (backend_arg build_type_arg : option string)
    (append_vcvars : bool) (exe_wrapper_arg : option string) (w : world Disk)
    (m : t) (w' : world Disk) :
  __init__ conanfile backend_arg build_type_arg append_vcvars exe_wrapper_arg w = (Ok m, w') ->
  exe_wrapper m = Py.or_default exe_wrapper_arg "false".
Proof.
  unfold __init__, build_type_setter, conan_v2_behavior, warn, emit, modify.
  unfold bind, ret, raise.
  intros Hinit. repeat (case_match; simplify_eq/=); done.
Qed.

(** C4. An adapter constructed without an exe wrapper holds the string
    "false", and a synthesized cross file holds the adapter's exe wrapper
    verbatim between single quotes as the value of needs_exe_wrapper. *)
Theorem exe_wrapper_default_and_verbatim :
  (forall conanfile backend_arg build_type_arg append_vcvars (w : world Disk) m w',
     __init__ conanfile backend_arg build_type_arg append_vcvars None w = (Ok m, w') ->
     exe_wrapper m = "false") /\
  (forall cross_filename environ_append (s : state Disk) environ_append' s',
     _configure_cross_compile cross_filename environ_append s = (Ok environ_append', s') ->
     exists text,
       trace (outside s') = trace (outside s) ++ [EvWrite cross_filename text] /\
       has_line (indent +:+ "needs_exe_wrapper = '" +:+ exe_wrapper (self s) +:+ "'") text).
Proof.
  split.
  - intros * Hinit. by apply __init___exe_wrapper in Hinit.
  - intros * Hcc. apply cross_file_properties in Hcc as (text & ? & ? & ? & ? & ?).
    by exists text.
Qed.

(** C5, as amended. For CFLAGS and c_args, and for CXXFLAGS and
    cpp_args: the cross file holds the field with the list of the
    variable's tokens, each printed by [repr] and separated by a comma
    and a space; a variable that is unset or empty gives the single
    empty token, the line [c_args = ['']]; the tokens are the pieces of
    the value between its space characters (joined by one space they are
    the value again, and none holds a space; any other whitespace stays
    inside its token); a plain token, one of printable ASCII characters
    without single quote and backslash, is printed between single
    quotes. *)
Theorem cross_file_flag_lists (cross_filename : string)
    (environ_append : gmap string (option string)) (s : state Disk)
    (environ_append' : gmap string (option string)) (s' : state Disk) :
  _configure_cross_compile cross_filename environ_append s = (Ok environ_append', s') ->
  exists text,
    trace (outside s') = trace (outside s) ++ [EvWrite cross_filename text] /\
    forall var field, In (var, field) flag_fields ->
      let value := Py.get_default (os_environ (outside s) !! var) EmptyString in
      let tokens := Py.split " "%char value in
      has_line (indent +:+ field +:+ " = [" +:+
                Py.join ", " (map (Py.repr repr_non_ascii) tokens) +:+ "]") text /\
      (value = EmptyString -> has_line (indent +:+ field +:+ " = ['']") text) /\
      Py.join " " tokens = value /\
      Forall (fun t => Py.contains " "%char t = false) tokens /\
      Forall (fun t => plain t = true -> Py.repr repr_non_ascii t = "'" +:+ t +:+ "'") tokens.
Proof.
  intros Hcc. apply cross_file_properties in Hcc as (text & libdir & Htr & _ & _ & Hcxx & Hc & _).
  exists text. split; [done|].
  intros var field Hin value tokens.
  assert (has_line (indent +:+ field +:+ " = [" +:+ flags_list var (os_environ (outside s)) +:+ "]")
            text) as Hline.
  { destruct Hin as [[= <- <-]|[[= <- <-]|[]]]; [exact Hc|exact Hcxx]. }
  split; [exact Hline|]. split; [|split; [|split]].
  - intros Hempty. rewrite flags_list_empty in Hline by done. exact Hline.
  - apply join_split.
  - apply split_tokens.
  - apply Forall_forall. intros t _. apply repr_plain.
Qed.

End CrossFileClaims.

(** ** What [configure] does *)

Lemma first_enter_unique (pre1 pre2 rest1 rest2 : list event)
    (ov1 ov2 : gmap string (option string)) (p1 p2 : bool) :
  pre1 ++ EvEnter ov1 p1 :: rest1 = pre2 ++ EvEnter ov2 p2 :: rest2 ->
  Forall is_write pre1 -> Forall is_write pre2 ->
  pre1 = pre2 /\ ov1 = ov2 /\ p1 = p2 /\ rest1 = rest2.
Proof.
  revert pre2. induction pre1 as [|x pre1 IH]; intros [|y pre2] Heq H1 H2; simpl in Heq.
  - by injection Heq as -> -> ->.
  - injection Heq as <- _. inversion H2 as [|? ? Hy _]; subst. destruct Hy.
  - injection Heq as -> _. inversion H1 as [|? ? Hx _]; subst. destruct Hx.
  - injection Heq as -> Heq. inversion H1; inversion H2; subst.
    destruct (IH pre2 Heq) as (-> & -> & -> & ->); done.
Qed.

Section Configure.

Context {Disk : Type} `{Imports Disk}.

#[local] Opaque _configure_cross_compile _run meson_command _get_dirs
  pkg_config_path_value Dict.update host_machine_text cpu_translate flags_list
  overlay_update.

Lemma cross_plan_writes (m : t) (env : gmap string string) (wanted : bool)
    (bld pc cross : option string) (ov : gmap string (option string)) (writes : list event) :
  cross_plan m env wanted bld pc cross ov writes -> Forall is_write writes.
Proof.
  unfold cross_plan. destruct wanted.
  - intros (? & ? & ? & ? & _ & _ & _ & _ & _ & ->). by repeat constructor.
  - intros (_ & _ & ->). constructor.
Qed.

Lemma configure_skipped (args : option (list string)) (defs : option (list (string * string)))
    (source_dir build_dir_arg : option string) (pkg_config_paths : option (list string))
    (cache_build_folder build_folder source_folder : option string)
    (no_generated_cross_file : bool) (s : state Disk) :
  ConanFile.should_configure (_conanfile (self s)) = false ->
  configure args defs source_dir build_dir_arg pkg_config_paths cache_build_folder
    build_folder source_folder no_generated_cross_file s = (Ok tt, s).
Proof.
  intros Hflag. unfold configure. unfold bind at 1. unfold gets at 1.
  by rewrite Hflag.
Qed.

(** The effects of a call of [configure]: either it only wrote (and did
    so only on the way to a failure), or it got to its last statement:
    the directories were resolved and stored, the option plan holds the
    overrides, the pkg-config path was computed, the overlay [ov] was
    entered after the writes and every command run inside is the meson
    command line, whose outcome is the outcome of the call. *)
Lemma configure_effects (args : option (list string)) (defs : option (list (string * string)))
    (source_dir build_dir_arg : option string) (pkg_config_paths : option (list string))
    (cache_build_folder build_folder source_folder : option string)
    (no_generated_cross_file : bool) (s : state Disk) (r : result unit) (s' : state Disk)
    (evs : list event) :
  configure args defs source_dir build_dir_arg pkg_config_paths cache_build_folder
    build_folder source_folder no_generated_cross_file s = (r, s') ->
  trace (outside s') = trace (outside s) ++ evs ->
  let cf := _conanfile (self s) in
  let m1 := set_options (Dict.update (options (self s)) (default [] defs)) (self s) in
  Forall is_write evs \/
  exists src bld pc cross ov writes inner,
    _get_dirs m1 source_folder build_folder source_dir build_dir_arg cache_build_folder
      = Ok (src, bld) /\
    pkg_config_path_value cf pkg_config_paths = Ok pc /\
    cross_plan (set_build_dir bld m1) (os_environ (outside s))
      (cross_building (ConanFile.settings cf) && negb no_generated_cross_file)
      bld pc cross ov writes /\
    evs = writes ++ EvEnter ov false :: inner /\
    self s' = set_build_dir bld m1 /\
    os_environ (outside s') = os_environ (outside s) /\
    forall c e, In (EvRun c e) inner ->
      c = meson_command (set_build_dir bld m1) src cross (default [] args) /\
      exists d, r = fst (conanfile_run c e d).
Proof.
  intros Hrun Htr cf m1.
  destruct (ConanFile.should_configure (_conanfile (self s))) eqn:Hflag.
  2:{ rewrite configure_skipped in Hrun by done. injection Hrun as <- <-.
      left. rewrite <- (app_nil_r (trace (outside s))) in Htr at 1.
      apply app_inv_head in Htr. subst evs. constructor. }
  apply configure_inv in Hrun; [|done]. fold cf m1 in Hrun.
  destruct Hrun as [(e & _ & _ & ->)|(src & bld & Hdirs & Hself & Henv & Hrest)].
  { left. simpl in Htr. rewrite <- (app_nil_r (trace (outside s))) in Htr at 1.
    apply app_inv_head in Htr. subst evs. constructor. }
  destruct Hrest as [(e & writes & _ & Htr' & Hw)|
                     (pc & cross & ov & writes & s2 & Hpc & Hs2 & He2 & Htr2 & Hplan & Hlast)].
  { left. rewrite Htr' in Htr. apply app_inv_head in Htr. by subst. }
  right. apply environment_append_run_inv in Hlast as (_ & _ & inner & Htr' & Hin).
  exists src, bld, pc, cross, ov, writes, inner.
  repeat (split; [done|]). split; [|done].
  rewrite Htr', Htr2, <- app_assoc in Htr. by apply app_inv_head in Htr.
Qed.

Lemma run_is_not_write (c : string) (e : gmap string string) (evs : list event) :
  Forall is_write evs -> ~ In (EvRun c e) evs.
Proof.
  intros Hall Hin. apply (proj1 (List.Forall_forall _ _) Hall) in Hin. exact Hin.
Qed.

(** C3, as amended. When [configure] has handed its command to the
    runner, the call returns what the command returned and raises what
    it raised; in both cases the adapter holds the option plan updated
    with the overrides and the resolved build directory: a failure of
    the command rolls nothing back. *)
Theorem configure_keeps_updates_on_failure (args : option (list string))
    (defs : option (list (string * string)))
    (source_dir build_dir_arg : option string) (pkg_config_paths : option (list string))
    (cache_build_folder build_folder source_folder : option string)
    (no_generated_cross_file : bool) (s : state Disk) (r : result unit) (s' : state Disk)
    (evs : list event) (command : string) (env : gmap string string) :
  configure args defs source_dir build_dir_arg pkg_config_paths cache_build_folder
    build_folder source_folder no_generated_cross_file s = (r, s') ->
  trace (outside s') = trace (outside s) ++ evs ->
  In (EvRun command env) evs ->
  let m1 := set_options (Dict.update (options (self s)) (default [] defs)) (self s) in
  exists src bld d,
    _get_dirs m1 source_folder build_folder source_dir build_dir_arg cache_build_folder
      = Ok (src, bld) /\
    r = fst (conanfile_run command env d) /\
    options (self s') = Dict.update (options (self s)) (default [] defs) /\
    build_dir (self s') = bld.
Proof.
  intros Hrun Htr Hin m1.
  destruct (configure_effects _ _ _ _ _ _ _ _ _ _ _ _ _ Hrun Htr)
    as [Hw|(src & bld & pc & cross & ov & writes & inner & Hdirs & _ & Hplan & -> & Hself & Henv & Hcmd)].
  { by apply run_is_not_write in Hin. }
  apply in_app_or in Hin as [Hin|[[=]|Hin]].
  { apply cross_plan_writes in Hplan. by apply run_is_not_write in Hin. }
  destruct (Hcmd _ _ Hin) as (_ & d & ->).
  exists src, bld, d. rewrite Hself. done.
Qed.

(** C7. The build type is mapped by the table RelWithDebInfo to
    debugoptimized, MinSizeRel to release, Debug to debug, Release to
    release, and anything else, an unset build type included, to the
    empty string; every command [configure] runs is the meson command
    line whose last argument is [--buildtype=] followed by that value. *)
Theorem buildtype_mapping_and_option (args : option (list string))
    (defs : option (list (string * string)))
    (source_dir build_dir_arg : option string) (pkg_config_paths : option (list string))
    (cache_build_folder build_folder source_folder : option string)
    (no_generated_cross_file : bool) (s : state Disk) (r : result unit) (s' : state Disk)
    (evs : list event) (command : string) (env : gmap string string) :
  let m := self s in
  ((build_type m = Some "RelWithDebInfo" -> meson_buildtype m = "debugoptimized") /\
   (build_type m = Some "MinSizeRel" -> meson_buildtype m = "release") /\
   (build_type m = Some "Debug" -> meson_buildtype m = "debug") /\
   (build_type m = Some "Release" -> meson_buildtype m = "release") /\
   (forall other, build_type m = Some other ->
      ~ In other ["RelWithDebInfo"; "MinSizeRel"; "Debug"; "Release"] ->
      meson_buildtype m = EmptyString) /\
   (build_type m = None -> meson_buildtype m = EmptyString)) /\
  (configure args defs source_dir build_dir_arg pkg_config_paths cache_build_folder
     build_folder source_folder no_generated_cross_file s = (r, s') ->
   trace (outside s') = trace (outside s) ++ evs ->
   In (EvRun command env) evs ->
   exists src cross,
     command =
       "meson " +:+ Py.dq +:+ Py.str src +:+ Py.dq +:+ " " +:+
       Py.dq +:+ Py.str (build_dir (self s')) +:+ Py.dq +:+ " " +:+
       join_arguments
         [cross;
          Some ("--backend=" +:+ backend m);
          Some (flags (self s'));
          Some (args_to_string (Some (default [] args)));
          Some ("--buildtype=" +:+ meson_buildtype m)]).
Proof.
  intros m. split.
  - unfold meson_buildtype.
    repeat split; try (by intros ->).
    intros other Hbt Hnot. by apply (meson_buildtype_other m other).
  - intros Hrun Htr Hin.
    destruct (configure_effects _ _ _ _ _ _ _ _ _ _ _ _ _ Hrun Htr)
      as [Hw|(src & bld & pc & cross & ov & writes & inner & Hdirs & _ & Hplan & -> & Hself & Henv & Hcmd)].
    { by apply run_is_not_write in Hin. }
    apply in_app_or in Hin as [Hin|[[=]|Hin]].
    { apply cross_plan_writes in Hplan. by apply run_is_not_write in Hin. }
    destruct (Hcmd _ _ Hin) as (-> & _).
    exists src, cross. rewrite Hself.
    Local Transparent meson_command.
    reflexivity.
    Local Opaque meson_command.
Qed.

Lemma collect_Ok {A B : Type} (f : A -> result B) (l : list A) (items : list B) :
  collect f l = Ok items -> Forall2 (fun a b => f a = Ok b) l items.
Proof.
  revert items. induction l as [|a l IH]; intros items; simpl.
  - intros [= <-]. constructor.
  - destruct (f a) as [b|e] eqn:Hf; [|done].
    destruct (collect f l) as [bs|e]; [|done]. intros [= <-].
    constructor; [done|]. by apply IH.
Qed.

Lemma join_items_Ok (sep : string) (items : list (option string)) (joined : string) :
  join_items sep items = Ok joined ->
  exists strings, Forall2 (fun item s => item = Some s) items strings /\
                  joined = Py.join sep strings.
Proof.
  unfold join_items. destruct (mapM id items) as [strings|] eqn:Hm; [|done].
  intros [= <-]. exists strings. split; [|done]. by apply mapM_Some in Hm.
Qed.

Lemma pkg_config_path_value_spec (cf : ConanFile.t) (pkg_config_paths : option (list string))
    (pc : option string) :
  pkg_config_path_value cf pkg_config_paths = Ok pc ->
  (pkg_config_paths = None \/ pkg_config_paths = Some [] ->
     pc = ConanFile.install_folder cf) /\
  (forall f fs, pkg_config_paths = Some (f :: fs) ->
     exists paths,
       Forall2 (fun f p => get_abs_path (Some f) (ConanFile.install_folder cf) = Ok (Some p))
         (f :: fs) paths /\
       pc = Some (Py.join os_pathsep paths)).
Proof.
  Local Transparent pkg_config_path_value.
  unfold pkg_config_path_value.
  destruct pkg_config_paths as [[|f fs]|].
  - intros [= <-]. split; [done|]. by intros ? ? [=].
  - destruct (collect _ _) as [items|] eqn:Hitems; [|done].
    destruct (join_items _ _) as [joined|] eqn:Hjoin; [|done]. intros [= <-].
    split; [by intros [[=]|[=]]|]. intros ? ? [= <- <-].
    apply collect_Ok in Hitems. apply join_items_Ok in Hjoin as (paths & Hpaths & ->).
    exists paths. split; [|done].
    clear -Hitems Hpaths. revert paths Hpaths.
    induction Hitems as [|a item l items Ha _ IH]; intros paths Hpaths.
    + inversion Hpaths. constructor.
    + inversion Hpaths as [|? p ? ps Hp Hps]; subst. constructor; [done|]. by apply IH.
  - intros [= <-]. split; [done|]. by intros ? ? [=].
  Local Opaque pkg_config_path_value.
Qed.

Lemma host_text_libdir_line (os_host : string) (triple : string * string * string)
    (exe_wrapper cxxflags cflags : string) (libdir : option string)
    (cc cpp ar ld strip ranlib host_text : string) :
  host_machine_text os_host triple exe_wrapper cxxflags cflags libdir cc cpp ar ld strip ranlib
    = Some host_text ->
  has_line (indent +:+ "pkg_config_libdir='" +:+ Py.str libdir +:+ "'") host_text.
Proof.
  destruct triple as [[family cpu] endian].
  rewrite host_machine_text_lines. intros Heq.
  assert (host_text =
            Py.join LF (host_machine_lines os_host family cpu endian exe_wrapper cxxflags
                          cflags (Py.str libdir) cc cpp ar ld strip ranlib)) as ->
    by congruence.
  clear Heq. unfold host_machine_lines.
  refine (has_line_join _ [_; _; _; _; _; _; _; _; _; _; _] _ _ _); done.
Qed.


(** C1, as amended. After a cross-file synthesis, whatever the overlay
    held before, the overlay maps CC, CXX, CFLAGS, CXXFLAGS, CPPFLAGS and
    LDFLAGS to unset and holds every other name (LD, AR, STRIP and
    RANLIB among them, and PKG_CONFIG_PATH) as it held it before. So the
    overlay [configure] enters after writing a cross file maps those six
    names to unset and holds no other name than PKG_CONFIG_PATH. *)
Theorem cross_compile_clears_compiler_variables :
  (forall cross_filename environ_append (s : state Disk) environ_append' s',
     _configure_cross_compile cross_filename environ_append s = (Ok environ_append', s') ->
     (forall k, In k cleared_names -> environ_append' !! k = Some None) /\
     (forall k, ~ In k cleared_names -> environ_append' !! k = environ_append !! k)) /\
  (forall args defs source_dir build_dir_arg pkg_config_paths cache_build_folder
          build_folder source_folder no_generated_cross_file (s : state Disk) r s'
          pre rest ov post path text,
     configure args defs source_dir build_dir_arg pkg_config_paths cache_build_folder
       build_folder source_folder no_generated_cross_file s = (r, s') ->
     trace (outside s') = trace (outside s) ++ pre ++ EvEnter ov post :: rest ->
     Forall is_write pre ->
     In (EvWrite path text) pre ->
     (forall k, In k cleared_names -> ov !! k = Some None) /\
     (forall k, ~ In k cleared_names -> k <> "PKG_CONFIG_PATH" -> ov !! k = None)).
Proof.
  split.
  - intros * Hcc. apply _configure_cross_compile_inv in Hcc as (_ & _ & -> & _).
    split; intros k Hk; rewrite cleared_lookup; unfold cleared_names in Hk.
    + by rewrite bool_decide_eq_true_2.
    + by rewrite bool_decide_eq_false_2.
  - intros * Hrun Htr Hpre Hin.
    destruct (configure_effects _ _ _ _ _ _ _ _ _ _ _ _ _ Hrun Htr)
      as [Hw|(src & bld & pc & cross & ov' & writes & inner & _ & _ & Hplan & Heq & _)].
    { apply Forall_app in Hw as [_ Hw]. inversion Hw as [|? ? Hx _]. destruct Hx. }
    pose proof (cross_plan_writes _ _ _ _ _ _ _ _ Hplan) as Hw.
    apply first_enter_unique in Heq as (-> & -> & -> & ->); [|done|done].
    unfold cross_plan in Hplan. destruct (cross_building _ && negb _).
    + destruct Hplan as (? & ? & ? & ? & _ & _ & -> & _).
      split; intros k Hk; rewrite cleared_lookup; unfold cleared_names in Hk.
      * by rewrite bool_decide_eq_true_2.
      * intros Hne. rewrite bool_decide_eq_false_2 by done.
        by apply lookup_singleton_ne.
    + destruct Hplan as (_ & _ & ->). destruct Hin.
Qed.

End Configure.

(** * The helper on concrete inputs *)

Lemma find_run_In (tr : list event) (c : string) (e : gmap string string) :
  find_run tr = Some (c, e) -> In (EvRun c e) tr.
Proof.
  induction tr as [|ev tr IH]; [done|].
  destruct ev; simpl; try (intros Hf; right; by apply IH).
  intros [= -> ->]. by left.
Qed.

Example construct_cross :
  __init__ (H := Demo.posix) Demo.cross_conanfile None None false None (Demo.world0 ∅)
  = (Ok (Demo.construct Demo.cross_conanfile None), Demo.world0 ∅).
Proof. compute_eq. Qed.

Example construct_cross_fields :
  let m := Demo.construct Demo.cross_conanfile None in
  exe_wrapper m = "false" /\ backend m = "ninja" /\ build_dir m = None /\
  options m = [("libdir", "lib"); ("bindir", "bin"); ("sbindir", "bin");
               ("libexecdir", "bin"); ("includedir", "include");
               ("default_library", "shared")].
Proof. repeat split; compute_eq. Qed.

(** C1, the claim as stated fails: after the synthesis the overlay does
    not map LD, AR, STRIP or RANLIB to unset; it does not hold them. *)
Lemma cross_compile_leaves_binutils_variables :
  exists ov',
    Demo.cross_synthesis = (Ok ov', snd Demo.cross_synthesis) /\
    ov' !! "LD" = None /\ ov' !! "AR" = None /\
    ov' !! "STRIP" = None /\ ov' !! "RANLIB" = None /\
    ov' !! "CC" = Some None.
Proof.
  exists (overlay_update {["PKG_CONFIG_PATH" := Some "/install"]} cleared).
  repeat split; compute_eq.
Qed.

Lemma find_write_In (tr : list event) (f t : string) :
  find_write tr = Some (f, t) -> In (EvWrite f t) tr.
Proof.
  induction tr as [|ev tr IH]; [done|].
  destruct ev; simpl; try (intros Hf; right; by apply IH).
  intros [= -> ->]. by left.
Qed.

Lemma cross_compile_clears_compiler_variables_witness :
  let ov' := overlay_update {["PKG_CONFIG_PATH" := Some "/install"]} cleared in
  let ov := overlay_update {["PKG_CONFIG_PATH" := Some "/install/pc:/abs"]} cleared in
  ((forall k, In k cleared_names -> ov' !! k = Some None) /\
   (forall k, ~ In k cleared_names ->
      ov' !! k = ({["PKG_CONFIG_PATH" := Some "/install"]} : gmap string (option string)) !! k)) /\
  ((forall k, In k cleared_names -> ov !! k = Some None) /\
   (forall k, ~ In k cleared_names -> k <> "PKG_CONFIG_PATH" -> ov !! k = None)).
Proof.
  intros ov' ov. split.
  - apply (proj1 (cross_compile_clears_compiler_variables (H := Demo.cross))
             "/build/cross_file.txt" {["PKG_CONFIG_PATH" := Some "/install"]}
             Demo.cross_state _ (snd Demo.cross_synthesis)).
    compute_eq.
  - pose (tr := trace (outside (snd Demo.failing_configure))).
    refine (proj2 (cross_compile_clears_compiler_variables (H := Demo.cross_failing))
              None (Some [("k", "v")]) None None (Some ["pc"; "/abs"]) None None None false
              Demo.cross_state (fst Demo.failing_configure) (snd Demo.failing_configure)
              (take 1 tr) (drop 2 tr) ov false
              (fst Demo.failing_write) (snd Demo.failing_write) _ _ _ _).
    + compute_eq.
    + compute_eq.
    + assert (exists f text, take 1 tr = [EvWrite f text]) as (f & text & ->).
      { eexists _, _. vm_compute. reflexivity. }
      by repeat constructor.
    + apply find_write_In. compute_eq.
Defined.

(** C2: what [install] does without a package folder and without a
    prefix. The conanfile should install, has no package folder, and the
    options hold no prefix; [install] raises the [TypeError] of
    [mkdir(None)], not the error about the prefix, and runs nothing. *)
Lemma install_without_prefix_raises_mkdir_error :
  let s := Demo.cross_state in
  ConanFile.should_install (_conanfile (self s)) = true /\
  ConanFile.package_folder (_conanfile (self s)) = None /\
  Dict.get "prefix" (options (self s)) = None /\
  install (H := Demo.cross) None None s =
    (Raise (TypeError "stat: path should be string, bytes, os.PathLike or integer, not NoneType"),
     s) /\
  fst (install (H := Demo.cross) None None s) <> Raise prefix_not_defined.
Proof.
  repeat split; try compute_eq.
  intros Heq. vm_compute in Heq. discriminate Heq.
Qed.

(** C3, the claim as stated fails: the command of this call is run and
    fails, [configure] raises, and the adapter is not the one of before:
    its option plan has gained the override and its build directory is
    set. *)
Lemma failed_configure_changes_adapter :
  let s := Demo.cross_state in
  let s' := snd Demo.failing_configure in
  fst Demo.failing_configure <> Ok tt /\
  find_run (trace (outside s')) <> None /\
  Dict.get "k" (options (self s)) = None /\
  Dict.get "k" (options (self s')) = Some "v" /\
  build_dir (self s) = None /\
  build_dir (self s') = Some "/build".
Proof.
  repeat split; try compute_eq; intros Heq; vm_compute in Heq; discriminate Heq.
Qed.

Lemma configure_keeps_updates_on_failure_witness :
  let s := Demo.cross_state in
  let run := Demo.failing_run in
  let m1 := set_options (Dict.update (options (self s)) [("k", "v")]) (self s) in
  exists src bld d,
    _get_dirs (H := Demo.cross_failing) m1 None None None None None = Ok (src, bld) /\
    fst Demo.failing_configure = fst (conanfile_run (Imports := Demo.cross_failing) (fst run) (snd run) d) /\
    options (self (snd Demo.failing_configure)) = Dict.update (options (self s)) [("k", "v")] /\
    build_dir (self (snd Demo.failing_configure)) = bld.
Proof.
  intros s run m1.
  refine (configure_keeps_updates_on_failure (H := Demo.cross_failing)
            None (Some [("k", "v")]) None None (Some ["pc"; "/abs"]) None None None false
            s (fst Demo.failing_configure) (snd Demo.failing_configure)
            (trace (outside (snd Demo.failing_configure))) (fst run) (snd run) _ _ _).
  - compute_eq.
  - compute_eq.
  - apply find_run_In. compute_eq.
Defined.

Lemma exe_wrapper_default_and_verbatim_witness :
  exe_wrapper (Demo.construct Demo.cross_conanfile None) = "false" /\
  exists text,
    trace (outside (snd Demo.cross_synthesis)) =
      trace (outside Demo.cross_state) ++ [EvWrite "/build/cross_file.txt" text] /\
    has_line (indent +:+ "needs_exe_wrapper = '" +:+ exe_wrapper (self Demo.cross_state) +:+ "'")
      text.
Proof.
  split.
  - refine (proj1 (exe_wrapper_default_and_verbatim (H := Demo.posix))
              Demo.cross_conanfile None None false (Demo.world0 ∅) _ (Demo.world0 ∅) _).
    compute_eq.
  - refine (proj2 (exe_wrapper_default_and_verbatim (H := Demo.cross))
              "/build/cross_file.txt" {["PKG_CONFIG_PATH" := Some "/install"]}
              Demo.cross_state
              (overlay_update {["PKG_CONFIG_PATH" := Some "/install"]} cleared)
              (snd Demo.cross_synthesis) _).
    compute_eq.
Defined.

(** C5, the claim as stated fails: a tab is whitespace, and CFLAGS
    [-O2<TAB>-g] is not split at it; the cross file holds the one token
    [-O2\t-g], the tab printed as [repr] prints it. *)
Lemma flags_not_split_at_tab :
  let value := "-O2" +:+ String (ascii_of_nat 9) "-g" in
  os_environ (outside Demo.tab_state) !! "CFLAGS" = Some value /\
  Py.split " "%char value = [value] /\
  exists text,
    fst Demo.tab_synthesis =
      Ok (overlay_update {["PKG_CONFIG_PATH" := Some "/install"]} cleared) /\
    trace (outside (snd Demo.tab_synthesis)) = [EvWrite "/build/cross_file.txt" text] /\
    has_line (indent +:+ "c_args = ['-O2\t-g']") text.
Proof.
  intros value. split; [compute_eq|]. split; [compute_eq|].
  destruct (cross_file_properties (H := Demo.cross) "/build/cross_file.txt"
              {["PKG_CONFIG_PATH" := Some "/install"]}
              Demo.tab_state
              (overlay_update {["PKG_CONFIG_PATH" := Some "/install"]} cleared)
              (snd Demo.tab_synthesis))
    as (text & libdir & Htr & _ & _ & _ & Hc & _); [compute_eq|].
  exists text. split; [compute_eq|]. split; [exact Htr|].
  assert (flags_list (H := Demo.cross) "CFLAGS" Demo.tab_environ = "'-O2\t-g'") as Hflags
    by compute_eq.
  simpl in Hc. rewrite Hflags in Hc. exact Hc.
Qed.

Lemma cross_file_flag_lists_witness :
  exists text,
    trace (outside (snd Demo.cross_synthesis)) =
      trace (outside Demo.cross_state) ++ [EvWrite "/build/cross_file.txt" text] /\
    forall var field, In (var, field) flag_fields ->
      let value := Py.get_default (os_environ (outside Demo.cross_state) !! var) EmptyString in
      let tokens := Py.split " "%char value in
      has_line (indent +:+ field +:+ " = [" +:+
                Py.join ", " (map (Py.repr (repr_non_ascii (Imports := Demo.cross))) tokens) +:+
                "]") text /\
      (value = EmptyString -> has_line (indent +:+ field +:+ " = ['']") text) /\
      Py.join " " tokens = value /\
      Forall (fun t => Py.contains " "%char t = false) tokens /\
      Forall (fun t => plain t = true ->
                       Py.repr (repr_non_ascii (Imports := Demo.cross)) t = "'" +:+ t +:+ "'")
        tokens.
Proof.
  refine (cross_file_flag_lists (H := Demo.cross) "/build/cross_file.txt"
            {["PKG_CONFIG_PATH" := Some "/install"]} Demo.cross_state
            (overlay_update {["PKG_CONFIG_PATH" := Some "/install"]} cleared)
            (snd Demo.cross_synthesis) _).
  compute_eq.
Defined.

Lemma buildtype_mapping_and_option_witness :
  let run := Demo.failing_run in
  meson_buildtype (self Demo.cross_state) = "debugoptimized" /\
  exists src cross_option,
    fst run =
      "meson " +:+ Py.dq +:+ Py.str src +:+ Py.dq +:+ " " +:+
      Py.dq +:+ Py.str (build_dir (self (snd Demo.failing_configure))) +:+ Py.dq +:+ " " +:+
      join_arguments (Imports := Demo.cross_failing)
        [cross_option;
         Some ("--backend=" +:+ backend (self Demo.cross_state));
         Some (flags (H := Demo.cross_failing) (self (snd Demo.failing_configure)));
         Some (args_to_string (Imports := Demo.cross_failing) (Some []));
         Some ("--buildtype=" +:+ meson_buildtype (self Demo.cross_state))].
Proof.
  intros run.
  destruct (buildtype_mapping_and_option (H := Demo.cross_failing)
              None (Some [("k", "v")]) None None (Some ["pc"; "/abs"]) None None None false
              Demo.cross_state (fst Demo.failing_configure) (snd Demo.failing_configure)
              (trace (outside (snd Demo.failing_configure))) (fst run) (snd run))
    as [Htable Hcommand].
  split.
  - apply Htable. compute_eq.
  - apply Hcommand.
    + compute_eq.
    + compute_eq.
    + apply find_run_In. compute_eq.
Defined.

Lemma non_ninja_backend_refused_witness :
  (exists s',
     build (H := Demo.posix) None None None Demo.vs_state = (Raise unsupported_backend, s') /\
     self s' = self Demo.vs_state /\
     commands_run (trace (outside s')) = commands_run (trace (outside Demo.vs_state))) /\
  test (H := Demo.posix) None None None Demo.vs_state = (Raise unsupported_backend, Demo.vs_state).
Proof.
  destruct (non_ninja_backend_refused (H := Demo.posix) None None None Demo.vs_state) as [Hbuild Htest].
  - intros Heq. vm_compute in Heq. discriminate Heq.
  - split; [apply Hbuild|apply Htest]; compute_eq.
Defined.




(** * More properties of the helper *)

(** ** Phases and directories *)

Section Phases.

Context {Disk : Type} `{Imports Disk}.

#[local] Opaque _configure_cross_compile _run meson_command
  pkg_config_path_value Dict.update _run_ninja_targets _run_meson_command.

(** X1. A phase whose flag is off returns at once: whatever its
    arguments, the backend and the options, it raises nothing and leaves
    the adapter, the disk, the environment and the trace as they were. *)
Theorem disabled_phase_does_nothing (args : option (list string))
    (defs : option (list (string * string)))
    (source_dir build_dir_arg : option string) (pkg_config_paths : option (list string))
    (cache_build_folder build_folder source_folder : option string)
    (no_generated_cross_file : bool) (targets : option (list string)) (s : state Disk) :
  let cf := _conanfile (self s) in
  (ConanFile.should_configure cf = false ->
     configure args defs source_dir build_dir_arg pkg_config_paths cache_build_folder
       build_folder source_folder no_generated_cross_file s = (Ok tt, s)) /\
  (ConanFile.should_build cf = false -> build args build_dir_arg targets s = (Ok tt, s)) /\
  (ConanFile.should_install cf = false ->
     install args build_dir_arg s = (Ok tt, s) /\
     meson_install args build_dir_arg s = (Ok tt, s)) /\
  (ConanFile.should_test cf = false ->
     test args build_dir_arg targets s = (Ok tt, s) /\
     meson_test args build_dir_arg s = (Ok tt, s)).
Proof.
  intros cf. subst cf. split; [|split; [|split]]; intros Hflag.
  - by apply configure_skipped.
  - unfold build, bind, gets. simpl. by rewrite Hflag.
  - split.
    + unfold install, bind, gets. simpl. by rewrite Hflag.
    + unfold meson_install, bind, gets. simpl. by rewrite Hflag.
  - split.
    + unfold test, bind, gets. simpl. by rewrite Hflag.
    + unfold meson_test, bind, gets. simpl. by rewrite Hflag.
Qed.

Lemma _get_dirs_both_styles (m : t)
    (source_folder build_folder source_dir build_dir_arg cache_build_folder : option string) :
  both_styles source_folder build_folder source_dir build_dir_arg = true ->
  _get_dirs m source_folder build_folder source_dir build_dir_arg cache_build_folder
    = Raise conflicting_directories.
Proof. unfold _get_dirs, both_styles. by intros ->. Qed.

(** X2. With directories given in both styles, an enabled [configure]
    raises the error of [_get_dirs] before touching the disk: no
    directory is made, nothing is written or run and the stored build
    directory stays; the overrides, merged first, are in the options all
    the same. *)
Theorem configure_rejects_both_directory_styles (args : option (list string))
    (defs : option (list (string * string)))
    (source_dir build_dir_arg : option string) (pkg_config_paths : option (list string))
    (cache_build_folder build_folder source_folder : option string)
    (no_generated_cross_file : bool) (s : state Disk) :
  ConanFile.should_configure (_conanfile (self s)) = true ->
  both_styles source_folder build_folder source_dir build_dir_arg = true ->
  configure args defs source_dir build_dir_arg pkg_config_paths cache_build_folder
    build_folder source_folder no_generated_cross_file s =
  (Raise conflicting_directories,
   State (set_options (Dict.update (options (self s)) (default [] defs)) (self s)) (outside s)).
Proof.
  intros Hflag Hboth.
  destruct (configure _ _ _ _ _ _ _ _ _ s) as [r s'] eqn:Hrun.
  apply configure_inv in Hrun; [|done].
  destruct Hrun as [(e & Hdirs & -> & ->)|(src & bld & Hdirs & _)];
    rewrite _get_dirs_both_styles in Hdirs by done.
  - by injection Hdirs as <-.
  - discriminate Hdirs.
Qed.

End Phases.

Section Constructor.

Context {Disk : Type} `{Imports Disk}.

#[local] Opaque cppstd_conan2meson Py.in_.

Lemma warn_unless_then {A : Type} (b : bool) (msg : string)
    (k : M (world Disk) A) (w : world Disk) :
  ((if b then ret tt else conan_v2_behavior msg) ;;; k) w =
  k (World (os_environ w) (disk w) (trace w ++ (if b then [] else [EvWarn msg]))).
Proof.
  destruct w as [env d tr]. unfold bind. destruct b; simpl.
  - by rewrite app_nil_r.
  - done.
Qed.

Lemma build_type_override (build_type_arg : option string) (m : t) (w : world Disk) :
  let settings_build_type := _settings m !! "build_type" in
  let overrides :=
    Py.truthy build_type_arg && negb (bool_decide (build_type_arg = settings_build_type)) in
  (if overrides then build_type_setter build_type_arg m else ret m) w =
  (Ok (if overrides then set_build_type build_type_arg m else m),
   World (os_environ w) (disk w)
     (trace w ++
      if overrides
      then [EvWarn ("Set build type " +:+ Py.dq +:+ Py.str build_type_arg +:+ Py.dq +:+
                    " is different than the settings build_type " +:+
                    Py.dq +:+ Py.str settings_build_type +:+ Py.dq)]
      else [])).
Proof.
  intros sbt overrides. subst sbt overrides. destruct w as [env d tr].
  destruct (Py.truthy build_type_arg && negb _) eqn:Hov.
  - apply andb_true_iff in Hov as [_ Hne]. apply negb_true_iff in Hne.
    apply bool_decide_eq_false in Hne.
    unfold build_type_setter, ConanFile.get_safe, bind, ret, warn, emit, modify.
    destruct (decide _) as [Heq|_]; [done|]. done.
  - unfold ret. simpl. by rewrite app_nil_r.
Qed.

(** The options the constructor has set before it looks at the C++
    standard, and the ones it sets after it, over the options [base] of
    that moment. *)
Lemma seed_directories (cf : ConanFile.t) :
  Dict.set "includedir" DEFAULT_INCLUDE
    (Dict.set "libexecdir" DEFAULT_BIN
       (Dict.set "sbindir" DEFAULT_BIN
          (Dict.set "bindir" DEFAULT_BIN
             (Dict.set "libdir" DEFAULT_LIB
                match ConanFile.package_folder cf with
                | Some (String c f) => Dict.set "prefix" (String c f) []
                | _ => []
                end)))) =
  match ConanFile.package_folder cf with
  | Some (String c f) => [("prefix", String c f)]
  | _ => []
  end ++
  [("libdir", DEFAULT_LIB); ("bindir", DEFAULT_BIN); ("sbindir", DEFAULT_BIN);
   ("libexecdir", DEFAULT_BIN); ("includedir", DEFAULT_INCLUDE)].
Proof. by destruct (ConanFile.package_folder cf) as [[|c f]|]. Qed.

Lemma dict_set_fresh {V : Type} (k : string) (v : V) (d : list (string * V)) :
  Dict.get k d = None -> Dict.set k v d = d ++ [(k, v)].
Proof.
  induction d as [|[k' v'] d IH]; simpl; [done|].
  destruct (String.eqb k k'); [done|]. intros Hd. by rewrite IH.
Qed.

Lemma dict_get_app_fresh {V : Type} (k k' : string) (v : V) (d : list (string * V)) :
  k <> k' -> Dict.get k (d ++ [(k', v)]) = Dict.get k d.
Proof.
  intros Hne. induction d as [|[k0 v0] d IH]; simpl.
  - destruct (String.eqb k k') eqn:E; [|done]. apply String.eqb_eq in E. congruence.
  - by rewrite IH.
Qed.

Lemma tail_options_eq (cf : ConanFile.t) (o : list (string * string)) :
  Dict.get "default_library" o = None /\ Dict.get "b_staticpic" o = None ->
  tail_options cf o =
    o ++
    [("default_library",
      if bool_decide (ConanFile.options cf !! "shared" = Some false)
      then "static" else "shared")] ++
    if Py.truthy (ConanFile.settings cf !! "os") &&
       negb (Py.in_ "Windows" (Py.str (ConanFile.settings cf !! "os")))
    then
      match ConanFile.options cf !! "fPIC" with
      | Some fpic =>
          [("b_staticpic",
            if fpic || default false (ConanFile.options cf !! "shared")
            then "true" else "false")]
      | None => []
      end
    else [].
Proof.
  intros [Hdl Hpic]. unfold tail_options.
  assert (match ConanFile.options cf !! "shared" with
          | Some false => "static"
          | _ => "shared"
          end =
          if bool_decide (ConanFile.options cf !! "shared" = Some false)
          then "static" else "shared") as ->.
  { by destruct (ConanFile.options cf !! "shared") as [[|]|]. }
  rewrite (dict_set_fresh "default_library") by done.
  destruct (_ && _); [|by rewrite app_nil_r].
  destruct (ConanFile.options cf !! "fPIC") as [fpic|]; [|by rewrite app_nil_r].
  rewrite dict_set_fresh; [by rewrite <- app_assoc|].
  by rewrite dict_get_app_fresh.
Qed.

(** X4. What the constructor leaves in a new adapter: the options in
    the order [seeded_options] lists them (the order [flags] renders them
    in), no build directory, the backend "ninja" unless one is given, the
    settings' values, and as build type the argument when it is given
    and differs from the settings, else the settings' build type; the
    disk and the environment are untouched and the trace gains exactly
    the warnings of [init_warnings]. *)
Theorem __init___adapter (conanfile : ConanFile.t) (backend_arg build_type_arg : option string)
    (append_vcvars : bool) (exe_wrapper_arg : option string) (w : world Disk)
    (m : t) (w' : world Disk) :
  __init__ conanfile backend_arg build_type_arg append_vcvars exe_wrapper_arg w = (Ok m, w') ->
  let st := ConanFile.settings conanfile in
  options m = seeded_options conanfile /\
  build_dir m = None /\
  backend m = Py.or_default backend_arg "ninja" /\
  _conanfile m = conanfile /\ _settings m = st /\ _append_vcvars m = append_vcvars /\
  _os m = st !! "os" /\ _compiler m = st !! "compiler" /\
  _compiler_version m = st !! "compiler.version" /\
  _build_type m =
    (if Py.truthy build_type_arg && negb (bool_decide (build_type_arg = st !! "build_type"))
     then build_type_arg else st !! "build_type") /\
  w' = World (os_environ w) (disk w) (trace w ++ init_warnings conanfile build_type_arg).
Proof.
  unfold __init__, ConanFile.get_safe. rewrite warn_unless_then.
  intros Hinit.
  set (w1 := World (os_environ w) (disk w)
               (trace w ++
                (if Py.truthy (ConanFile.settings conanfile !! "compiler") then []
                 else [EvWarn "compiler setting should be defined."]))) in *.
  set (adapter := fun o =>
         Make conanfile (ConanFile.settings conanfile) append_vcvars
           (Py.or_default exe_wrapper_arg "false")
           (ConanFile.settings conanfile !! "os")
           (ConanFile.settings conanfile !! "compiler")
           (ConanFile.settings conanfile !! "compiler.version")
           (ConanFile.settings conanfile !! "build_type")
           (Py.or_default backend_arg "ninja") o None).
  assert (exists o,
            tail_options conanfile o = seeded_options conanfile /\
            (if Py.truthy build_type_arg &&
                negb (bool_decide (build_type_arg = ConanFile.settings conanfile !! "build_type"))
             then build_type_setter build_type_arg (adapter (tail_options conanfile o))
             else ret (adapter (tail_options conanfile o))) w1
            = (Ok m, w')) as (o & Ho & Hm).
  { unfold seeded_options. unfold bind in Hinit.
    set (base := Dict.set "includedir" DEFAULT_INCLUDE _) in Hinit.
    assert (base =
              match ConanFile.package_folder conanfile with
              | Some (String c f) => [("prefix", String c f)]
              | _ => []
              end ++
              [("libdir", DEFAULT_LIB); ("bindir", DEFAULT_BIN); ("sbindir", DEFAULT_BIN);
               ("libexecdir", DEFAULT_BIN); ("includedir", DEFAULT_INCLUDE)]) as Hbase
      by apply seed_directories.
    assert (Dict.get "cpp_std" base = None /\ Dict.get "default_library" base = None /\
            Dict.get "b_staticpic" base = None) as (Hcpp & Hdl & Hpic).
    { rewrite Hbase. by destruct (ConanFile.package_folder conanfile) as [[|? ?]|]. }
    destruct (cppstd_from_settings _) as [[[|c f]|]|e]; [| | |done].
    - exists base. split; [|exact Hinit]. rewrite tail_options_eq by done.
      by rewrite Hbase, <- !app_assoc.
    - destruct (Dict.get _ cppstd_conan2meson) as [std|]; [|done].
      exists (Dict.set "cpp_std" std base). split; [|exact Hinit].
      rewrite dict_set_fresh by done.
      rewrite tail_options_eq by (by rewrite !dict_get_app_fresh).
      by rewrite Hbase, <- !app_assoc.
    - exists base. split; [|exact Hinit]. rewrite tail_options_eq by done.
      by rewrite Hbase, <- !app_assoc. }
  clear Hinit. rewrite Ho in Hm. clear Ho o.
  pose proof (build_type_override build_type_arg (adapter (seeded_options conanfile)) w1)
    as Hbt.
  simpl in Hbt. rewrite Hbt in Hm. clear Hbt. injection Hm as <- <-.
  unfold init_warnings, w1. simpl.
  destruct (Py.truthy build_type_arg && negb _) eqn:Hov; simpl;
    rewrite <- app_assoc; done.
Qed.

(** X5. The constructor raises in two cases only, both while it works
    out the C++ standard: [cppstd_from_settings] raises, and its error is
    passed on; or the standard it returns is not a key of the
    translation table, and the constructor raises [KeyError] for that
    standard. Either comes after the warning about a missing compiler,
    with nothing else done. In every other case the constructor returns
    an adapter. *)
Theorem __init___raises_only_for_cppstd (conanfile : ConanFile.t)
    (backend_arg build_type_arg : option string) (append_vcvars : bool)
    (exe_wrapper_arg : option string) (w : world Disk) :
  (forall e, init_error conanfile = Some e ->
     __init__ conanfile backend_arg build_type_arg append_vcvars exe_wrapper_arg w =
       (Raise e,
        World (os_environ w) (disk w)
          (trace w ++
           if Py.truthy (ConanFile.settings conanfile !! "compiler") then []
           else [EvWarn "compiler setting should be defined."]))) /\
  (init_error conanfile = None ->
     exists m w',
       __init__ conanfile backend_arg build_type_arg append_vcvars exe_wrapper_arg w
         = (Ok m, w')).
Proof.
  unfold init_error, __init__, ConanFile.get_safe. rewrite warn_unless_then.
  unfold bind.
  destruct (cppstd_from_settings _) as [[[|c f]|]|e].
  - split; [done|]. intros _. unfold ret at 1.
    destruct (_ && negb _).
    + unfold build_type_setter, bind, ret, warn, emit, modify.
      destruct (decide _); simpl; eauto.
    + unfold ret. eauto.
  - destruct (Dict.get _ cppstd_conan2meson) as [std|].
    + split; [done|]. intros _. unfold ret at 1.
      destruct (_ && negb _).
      * unfold build_type_setter, bind, ret, warn, emit, modify.
        destruct (decide _); simpl; eauto.
      * unfold ret. eauto.
    + split; [|done]. by intros ? [= <-].
  - split; [done|]. intros _. unfold ret at 1.
    destruct (_ && negb _).
    + unfold build_type_setter, bind, ret, warn, emit, modify.
      destruct (decide _); simpl; eauto.
    + unfold ret. eauto.
  - split; [|done]. by intros ? [= <-].
Qed.

End Constructor.

Section Commands.

Context {Disk : Type} `{Imports Disk}.

Lemma _run_commands (command : string) (s : state Disk) :
  self (snd (_run command s)) = self s /\
  commands_run (trace (outside (snd (_run command s)))) =
    commands_run (trace (outside s)) ++ (if reaches_command s then [command] else []).
Proof.
  unfold reaches_command. rewrite _run_eq. destruct (_vcvars_needed (self s)).
  - destruct (vcvars_dict _ _) as [vc|e].
    + unfold _environment_add, with_environment. rewrite _build_eq. simpl.
      split; [done|]. rewrite !commands_run_app. simpl. by rewrite !app_nil_r.
    + simpl. by rewrite app_nil_r.
  - rewrite _build_eq. simpl. split; [done|]. by rewrite !commands_run_app.
Qed.

Lemma with_environment_run_commands (ov : gmap string (option string)) (post : bool)
    (command : string) (s : state Disk) :
  exists ran : bool,
    self (snd (with_environment ov post (_run command) s)) = self s /\
    commands_run (trace (outside (snd (with_environment ov post (_run command) s)))) =
      commands_run (trace (outside s)) ++ (if ran then [command] else []).
Proof.
  unfold with_environment.
  destruct (_run command _) as [r s1] eqn:Hrun. simpl.
  pose proof (_run_commands command
                (State (self s)
                   (World (apply_overlay ov (os_environ (outside s))) (disk (outside s))
                      (trace (outside s) ++ [EvEnter ov post])))) as [Hself Hcmds].
  rewrite Hrun in Hself, Hcmds. simpl in Hself, Hcmds.
  eexists. split; [exact Hself|].
  rewrite commands_run_app, Hcmds, commands_run_app. simpl.
  by rewrite !app_nil_r.
Qed.

Lemma _run_ninja_targets_ninja (args : option (list string)) (build_dir_arg : option string)
    (targets : option (list string)) (s : state Disk) :
  backend (self s) = "ninja" ->
  _run_ninja_targets args build_dir_arg targets s =
    _run (ninja_command (self s) args build_dir_arg targets) s.
Proof.
  intros Hb. unfold _run_ninja_targets. unfold bind at 1. unfold gets at 1.
  by rewrite Hb.
Qed.

Lemma build_ninja (args : option (list string)) (build_dir_arg : option string)
    (targets : option (list string)) (s : state Disk) :
  backend (self s) = "ninja" ->
  ConanFile.should_build (_conanfile (self s)) = true ->
  build args build_dir_arg targets s =
    _run (ninja_command (self s) args build_dir_arg targets) (warned_build_type s).
Proof.
  intros Hb Hflag. unfold build, warned_build_type. unfold bind at 1. unfold gets at 1.
  rewrite Hflag. cbn [negb]. unfold bind.
  destruct (Py.truthy (_build_type (self s))).
  - unfold ret. by rewrite _run_ninja_targets_ninja.
  - unfold on_world, conan_v2_behavior, warn, emit, modify. simpl.
    by rewrite _run_ninja_targets_ninja.
Qed.

Lemma test_ninja (args : option (list string)) (build_dir_arg : option string)
    (targets : option (list string)) (s : state Disk) :
  backend (self s) = "ninja" ->
  ConanFile.should_test (_conanfile (self s)) = true ->
  test args build_dir_arg targets s =
    _run (ninja_command (self s) args build_dir_arg
            (match targets with
             | Some (x :: l) => Some (x :: l)
             | _ => Some ["test"]
             end)) s.
Proof.
  intros Hb Hflag. unfold test. unfold bind at 1. unfold gets at 1.
  rewrite Hflag. cbn [negb]. by rewrite _run_ninja_targets_ninja.
Qed.

Lemma reaches_command_warned (s : state Disk) :
  reaches_command (warned_build_type s) = reaches_command s.
Proof. unfold warned_build_type. by destruct (Py.truthy _). Qed.

Lemma commands_run_warned (s : state Disk) :
  self (warned_build_type s) = self s /\
  commands_run (trace (outside (warned_build_type s))) = commands_run (trace (outside s)).
Proof.
  unfold warned_build_type. destruct (Py.truthy _); [done|]. simpl.
  split; [done|]. rewrite commands_run_app. simpl. by rewrite app_nil_r.
Qed.

(** X6. The commands of the ninja phases. With the "ninja" backend and
    vcvars delivered where needed, an enabled [build] runs exactly one
    command, [ninja -C "<dir>" <args> <targets>]; an enabled [test] runs
    it with the targets it is given, or with the target "test" when it
    is given none or an empty list. Neither changes the adapter. *)
Theorem ninja_phase_commands (args : option (list string)) (build_dir_arg : option string)
    (targets : option (list string)) (s : state Disk) :
  backend (self s) = "ninja" ->
  reaches_command s = true ->
  let m := self s in
  (ConanFile.should_build (_conanfile m) = true ->
     self (snd (build args build_dir_arg targets s)) = m /\
     commands_run (trace (outside (snd (build args build_dir_arg targets s)))) =
       commands_run (trace (outside s)) ++ [ninja_command m args build_dir_arg targets]) /\
  (ConanFile.should_test (_conanfile m) = true ->
     self (snd (test args build_dir_arg targets s)) = m /\
     commands_run (trace (outside (snd (test args build_dir_arg targets s)))) =
       commands_run (trace (outside s)) ++
       [ninja_command m args build_dir_arg
          (match targets with
           | Some (x :: l) => Some (x :: l)
           | _ => Some ["test"]
           end)]).
Proof.
  intros Hb Hreach m. subst m. split; intros Hflag.
  - rewrite build_ninja by done.
    destruct (_run_commands (ninja_command (self s) args build_dir_arg targets)
                (warned_build_type s)) as [Hself Hcmds].
    destruct (commands_run_warned s) as [Hself' Hcmds'].
    rewrite reaches_command_warned, Hreach, Hcmds' in Hcmds. by rewrite Hself, Hself'.
  - rewrite test_ninja by done.
    match goal with
    | |- context [_run ?c s] => destruct (_run_commands c s) as [Hself Hcmds]
    end.
    rewrite Hreach in Hcmds. done.
Qed.

Lemma _run_meson_command_eq (subcommand : string) (args : option (list string))
    (build_dir_arg : option string) (s : state Disk) :
  _run_meson_command (Some subcommand) args build_dir_arg s =
    _run (meson_subcommand (self s) subcommand args build_dir_arg) s.
Proof. reflexivity. Qed.

(** X7. The meson phases do not look at the backend: for every backend,
    an enabled [meson_install] runs exactly the one command
    [meson install -C "<dir>" <args>] and an enabled [meson_test] the
    command [meson test -C "<dir>" <args>], where [build] and [test]
    refuse a backend other than "ninja". *)
Theorem meson_phases_ignore_backend (args : option (list string))
    (build_dir_arg : option string) (s : state Disk) :
  reaches_command s = true ->
  let m := self s in
  (ConanFile.should_install (_conanfile m) = true ->
     self (snd (meson_install args build_dir_arg s)) = m /\
     commands_run (trace (outside (snd (meson_install args build_dir_arg s)))) =
       commands_run (trace (outside s)) ++ [meson_subcommand m "install" args build_dir_arg]) /\
  (ConanFile.should_test (_conanfile m) = true ->
     self (snd (meson_test args build_dir_arg s)) = m /\
     commands_run (trace (outside (snd (meson_test args build_dir_arg s)))) =
       commands_run (trace (outside s)) ++ [meson_subcommand m "test" args build_dir_arg]).
Proof.
  intros Hreach m. subst m. split; intros Hflag.
  - assert (meson_install args build_dir_arg s =
              _run (meson_subcommand (self s) "install" args build_dir_arg) s) as ->.
    { unfold meson_install. unfold bind at 1. unfold gets at 1. by rewrite Hflag. }
    destruct (_run_commands (meson_subcommand (self s) "install" args build_dir_arg) s)
      as [Hself Hcmds].
    by rewrite Hreach in Hcmds.
  - assert (meson_test args build_dir_arg s =
              _run (meson_subcommand (self s) "test" args build_dir_arg) s) as ->.
    { unfold meson_test. unfold bind at 1. unfold gets at 1. by rewrite Hflag. }
    destruct (_run_commands (meson_subcommand (self s) "test" args build_dir_arg) s)
      as [Hself Hcmds].
    by rewrite Hreach in Hcmds.
Qed.

Lemma install_eq (args : option (list string)) (build_dir_arg : option string)
    (s : state Disk) :
  ConanFile.should_install (_conanfile (self s)) = true ->
  install args build_dir_arg s =
    let s1 := after_mkdir (ConanFile.package_folder (_conanfile (self s))) s in
    match fst (mkdir (ConanFile.package_folder (_conanfile (self s))) (disk (outside s))) with
    | Raise e => (Raise e, s1)
    | Ok _ =>
        if Py.truthy (Dict.get "prefix" (options (self s)))
        then _run_ninja_targets args build_dir_arg (Some ["install"]) s1
        else (Raise prefix_not_defined, s1)
    end.
Proof.
  intros Hflag. unfold after_mkdir.
  unfold install. unfold bind at 1. unfold gets at 1. rewrite Hflag. cbn [negb].
  unfold bind, on_world, on_disk. simpl.
  destruct (mkdir _ _) as [[[]|e] d1]; simpl; [|done].
  by destruct (Py.truthy _).
Qed.

(** X8. The three ways of an enabled [install]. It first makes the
    package folder: what [mkdir] raises, [install] raises, with nothing
    run. Then, with no prefix in the options or an empty one, it raises
    the error about the prefix, with nothing run, whatever the backend.
    Otherwise it goes on as [_run_ninja_targets] with the one target
    "install", on the disk [mkdir] left. *)
Theorem install_cases (args : option (list string)) (build_dir_arg : option string)
    (s : state Disk) :
  ConanFile.should_install (_conanfile (self s)) = true ->
  let folder := ConanFile.package_folder (_conanfile (self s)) in
  let s1 := after_mkdir folder s in
  (forall e, fst (mkdir folder (disk (outside s))) = Raise e ->
     install args build_dir_arg s = (Raise e, s1)) /\
  (fst (mkdir folder (disk (outside s))) = Ok tt ->
   Py.truthy (Dict.get "prefix" (options (self s))) = false ->
     install args build_dir_arg s = (Raise prefix_not_defined, s1)) /\
  (fst (mkdir folder (disk (outside s))) = Ok tt ->
   Py.truthy (Dict.get "prefix" (options (self s))) = true ->
     install args build_dir_arg s =
       _run_ninja_targets args build_dir_arg (Some ["install"]) s1).
Proof.
  intros Hflag folder s1. subst folder s1. rewrite install_eq by done. cbn zeta.
  destruct (fst (mkdir _ _)) as [[]|e].
  - split; [by intros ? [=]|]. split; intros _ ->; done.
  - split; [by intros ? [= ->]|]. split; intros [=].
Qed.

Lemma at_most_one_refl (s s' : state Disk) :
  trace (outside s') = trace (outside s) -> at_most_one_command s s'.
Proof. intros Htr. exists []. rewrite Htr, app_nil_r. split; [done|]. simpl. lia. Qed.

Lemma _run_at_most_one (command : string) (s : state Disk) :
  at_most_one_command s (snd (_run command s)).
Proof.
  destruct (_run_commands command s) as [_ Hcmds]. eexists. split; [exact Hcmds|].
  destruct (reaches_command s); simpl; lia.
Qed.

Lemma _run_ninja_targets_at_most_one (args : option (list string))
    (build_dir_arg : option string) (targets : option (list string)) (s : state Disk) :
  at_most_one_command s (snd (_run_ninja_targets args build_dir_arg targets s)).
Proof.
  destruct (decide (backend (self s) = "ninja")) as [Hb|Hb].
  - rewrite _run_ninja_targets_ninja by done. apply _run_at_most_one.
  - rewrite _run_ninja_targets_not_ninja by done. by apply at_most_one_refl.
Qed.

Lemma commands_run_writes (writes : list event) :
  Forall is_write writes -> commands_run writes = [].
Proof.
  induction 1 as [|ev writes Hev _ IH]; [done|].
  destruct ev; try destruct Hev. exact IH.
Qed.

Lemma build_enabled (args : option (list string)) (build_dir_arg : option string)
    (targets : option (list string)) (s : state Disk) :
  ConanFile.should_build (_conanfile (self s)) = true ->
  build args build_dir_arg targets s =
    _run_ninja_targets args build_dir_arg targets (warned_build_type s).
Proof.
  intros Hflag. unfold build, warned_build_type. unfold bind at 1. unfold gets at 1.
  rewrite Hflag. cbn [negb]. unfold bind.
  destruct (Py.truthy (_build_type (self s))); [done|].
  unfold on_world, conan_v2_behavior, warn, emit, modify. by simpl.
Qed.

Lemma at_most_one_after (s s1 s' : state Disk) :
  commands_run (trace (outside s1)) = commands_run (trace (outside s)) ->
  at_most_one_command s1 s' -> at_most_one_command s s'.
Proof. intros Heq (cmds & Hc & Hlen). exists cmds. by rewrite <- Heq. Qed.

(** X9. No phase runs more than one command: whatever the arguments and
    the outcome, the commands a call of [configure], [build], [install],
    [test], [meson_install] or [meson_test] hands to the runner are none
    or one. *)
Theorem phases_run_at_most_one_command (args : option (list string))
    (defs : option (list (string * string)))
    (source_dir build_dir_arg : option string) (pkg_config_paths : option (list string))
    (cache_build_folder build_folder source_folder : option string)
    (no_generated_cross_file : bool) (targets : option (list string)) (s : state Disk) :
  at_most_one_command s
    (snd (configure args defs source_dir build_dir_arg pkg_config_paths cache_build_folder
            build_folder source_folder no_generated_cross_file s)) /\
  at_most_one_command s (snd (build args build_dir_arg targets s)) /\
  at_most_one_command s (snd (install args build_dir_arg s)) /\
  at_most_one_command s (snd (test args build_dir_arg targets s)) /\
  at_most_one_command s (snd (meson_install args build_dir_arg s)) /\
  at_most_one_command s (snd (meson_test args build_dir_arg s)).
Proof.
  split; [|split; [|split; [|split; [|split]]]].
  - destruct (ConanFile.should_configure (_conanfile (self s))) eqn:Hflag.
    2:{ rewrite configure_skipped by done. by apply at_most_one_refl. }
    destruct (configure _ _ _ _ _ _ _ _ _ s) as [r s'] eqn:Hrun. simpl.
    apply configure_inv in Hrun; [|done].
    destruct Hrun as [(e & _ & _ & ->)|(src & bld & _ & _ & _ & Hrest)];
      [by apply at_most_one_refl|].
    destruct Hrest as [(e & writes & _ & Htr & Hw)|
                       (pc & cross & ov & writes & s2 & _ & _ & _ & Htr & Hplan & Hlast)].
    + exists []. rewrite Htr, commands_run_app, (commands_run_writes writes Hw).
      split; [done|]. simpl. lia.
    + apply cross_plan_writes in Hplan.
      destruct (with_environment_run_commands ov false
                  (meson_command (set_build_dir bld
                                    (set_options (Dict.update (options (self s)) (default [] defs))
                                       (self s)))
                     src cross (default [] args)) s2) as (ran & _ & Hcmds).
      unfold environment_append in Hlast. rewrite Hlast in Hcmds. simpl in Hcmds.
      eexists. rewrite Hcmds, Htr, commands_run_app, (commands_run_writes writes Hplan), app_nil_r.
      split; [done|]. destruct ran; simpl; lia.
  - destruct (ConanFile.should_build (_conanfile (self s))) eqn:Hflag.
    + rewrite build_enabled by done.
      eapply at_most_one_after; [apply commands_run_warned|].
      apply _run_ninja_targets_at_most_one.
    + apply at_most_one_refl. unfold build, bind, gets. simpl. by rewrite Hflag.
  - destruct (ConanFile.should_install (_conanfile (self s))) eqn:Hflag.
    + rewrite install_eq by done. cbn zeta.
      destruct (fst (mkdir _ _)); [|by apply at_most_one_refl].
      destruct (Py.truthy _); [|by apply at_most_one_refl].
      eapply at_most_one_after; [|apply _run_ninja_targets_at_most_one]. done.
    + apply at_most_one_refl. unfold install, bind, gets. simpl. by rewrite Hflag.
  - unfold test. unfold bind at 1. unfold gets at 1. simpl.
    destruct (ConanFile.should_test (_conanfile (self s))); simpl.
    + apply _run_ninja_targets_at_most_one.
    + by apply at_most_one_refl.
  - unfold meson_install. unfold bind at 1. unfold gets at 1. simpl.
    destruct (ConanFile.should_install (_conanfile (self s))); simpl.
    + apply _run_at_most_one.
    + by apply at_most_one_refl.
  - unfold meson_test. unfold bind at 1. unfold gets at 1. simpl.
    destruct (ConanFile.should_test (_conanfile (self s))); simpl.
    + apply _run_at_most_one.
    + by apply at_most_one_refl.
Qed.

End Commands.

(** ** A vcvars dictionary that is not delivered *)

Section VcvarsFailure.

Context {Disk : Type} `{Imports Disk}.

Lemma _run_vcvars_error (command : string) (s : state Disk) (e : exn) :
  _vcvars_needed (self s) = true ->
  vcvars_dict (_settings (self s)) (os_environ (outside s)) = Raise e ->
  _run command s = (Raise e, s).
Proof. intros Hvc Herr. by rewrite _run_eq, Hvc, Herr. Qed.

(** X10. When the vcvars dictionary is needed and [vcvars_dict] raises,
    every enabled phase that gets to its command raises that error and
    hands nothing to the runner; the state is the one of the call, but
    for the warning of [build] about a missing build type. *)
Theorem vcvars_error_stops_phases (args : option (list string))
    (build_dir_arg : option string) (targets : option (list string)) (s : state Disk)
    (e : exn) :
  _vcvars_needed (self s) = true ->
  vcvars_dict (_settings (self s)) (os_environ (outside s)) = Raise e ->
  let cf := _conanfile (self s) in
  (ConanFile.should_build cf = true ->
     build args build_dir_arg targets s = (Raise e, warned_build_type s)) /\
  (ConanFile.should_test cf = true ->
     test args build_dir_arg targets s = (Raise e, s) /\
     meson_test args build_dir_arg s = (Raise e, s)) /\
  (ConanFile.should_install cf = true ->
     meson_install args build_dir_arg s = (Raise e, s)).
Proof.
  intros Hvc Herr cf. subst cf.
  assert (backend (self s) = "ninja") as Hb.
  { unfold _vcvars_needed in Hvc. rewrite !andb_true_iff, !bool_decide_eq_true in Hvc. tauto. }
  split; [|split]; intros Hflag.
  - rewrite build_ninja by done. apply _run_vcvars_error.
    + unfold warned_build_type. by destruct (Py.truthy _).
    + unfold warned_build_type. by destruct (Py.truthy _).
  - split.
    + rewrite test_ninja by done. by apply _run_vcvars_error.
    + unfold meson_test. unfold bind at 1. unfold gets at 1. rewrite Hflag. cbn [negb].
      rewrite _run_meson_command_eq. by apply _run_vcvars_error.
  - unfold meson_install. unfold bind at 1. unfold gets at 1. rewrite Hflag. cbn [negb].
    rewrite _run_meson_command_eq. by apply _run_vcvars_error.
Qed.

End VcvarsFailure.

(** ** The content of the cross file *)

Lemma build_machine_text_lines (os_build cpu_family cpu endian : string) :
  build_machine_text (cpu_family, cpu, endian) os_build =
  Some (Py.join LF (build_machine_lines (Py.lower os_build) cpu_family cpu endian)).
Proof.
  unfold build_machine_lines, build_indent, indent, LF. cbn [Py.join].
  rewrite !append_assoc. reflexivity.
Qed.

Section CrossText.

Context {Disk : Type} `{Imports Disk}.

#[local] Opaque host_machine_text build_machine_text cpu_translate flags_list
  overlay_update Py.lower Py.str Py.get_default host_machine_lines build_machine_lines Py.join.

(** X11. A key that is not found stops the synthesis before the file is
    opened: for the first of the build architecture, the host
    architecture and PKG_CONFIG_PATH in the overlay that is missing,
    [_configure_cross_compile] raises [KeyError] with that key and leaves
    the adapter, the disk and the trace as they were. *)
Theorem _configure_cross_compile_key_error (cross_filename : string)
    (environ_append : gmap string (option string)) (s : state Disk) (k : string) :
  missing_key (_conanfile (self s)) environ_append = Some k ->
  _configure_cross_compile cross_filename environ_append s = (Raise (KeyError k), s).
Proof.
  destruct s as [m [env d tr]]. simpl.
  unfold missing_key, _configure_cross_compile, cpu_translate_item.
  unfold bind, gets, ret, raise. simpl.
  intros Hk.
  repeat (case_match; simplify_eq/=); done.
Qed.

Lemma cross_file_written (cross_filename : string)
    (environ_append : gmap string (option string)) (s : state Disk)
    (libdir : option string) (text : string) :
  let m := self s in
  let w := outside s in
  environ_append !! "PKG_CONFIG_PATH" = Some libdir ->
  cross_file_text m (os_environ w) libdir = Some text ->
  _configure_cross_compile cross_filename environ_append s =
    match write_file cross_filename text (disk w) with
    | (Ok _, d') =>
        (Ok (overlay_update environ_append cleared),
         State m (World (os_environ w) d' (trace w ++ [EvWrite cross_filename text])))
    | (Raise e, d') => (Raise e, State m (World (os_environ w) d' (trace w)))
    end.
Proof.
  destruct s as [m [env d tr]]. simpl.
  unfold cross_file_text, _configure_cross_compile, cpu_translate_item, format_text_of,
    on_world, on_disk, emit, modify.
  unfold bind, gets, ret, raise. simpl.
  intros Hlib Htext. rewrite Hlib.
  destruct (ConanFile.settings_build (_conanfile m)) as [sb|].
  - destruct (Dict.get (Py.str (sb !! "arch")) cpu_translate) as [[[bf bc] be]|]; [|done].
    destruct (get_build_os_arch (_conanfile m)) as [[o|] ob]; simpl in *; [|done].
    destruct (Dict.get (Py.str (ConanFile.settings (_conanfile m) !! "arch")) cpu_translate)
      as [[[hf hc] he]|]; [|done].
    injection Htext as <-.
    rewrite build_machine_text_lines, host_machine_text_lines. simpl.
    by destruct (write_file _ _ d) as [[[]|e] d'].
  - destruct (Dict.get (Py.str (ConanFile.settings (_conanfile m) !! "arch")) cpu_translate)
      as [[[hf hc] he]|]; [|done].
    injection Htext as <-.
    rewrite host_machine_text_lines. simpl.
    by destruct (write_file _ _ d) as [[[]|e] d'].
Qed.

(** X12. The synthesis succeeds exactly when the overlay holds
    PKG_CONFIG_PATH, the architectures are in the table, the build OS is
    known where there is [settings_build], and the file can be written;
    the file then holds the text of [cross_file_text], line by line: the
    [build_machine] block only with [settings_build], the host OS in
    lower case, the triple of the host architecture, and the tools of
    the process environment with their defaults cc, c++, ar, ld, strip
    and ranlib. It is written once, and nothing else changes. *)
Theorem cross_file_content (cross_filename : string)
    (environ_append : gmap string (option string)) (s : state Disk)
    (environ_append' : gmap string (option string)) (s' : state Disk) :
  let m := self s in
  let w := outside s in
  _configure_cross_compile cross_filename environ_append s = (Ok environ_append', s') <->
  exists libdir text d',
    environ_append !! "PKG_CONFIG_PATH" = Some libdir /\
    cross_file_text m (os_environ w) libdir = Some text /\
    write_file cross_filename text (disk w) = (Ok tt, d') /\
    environ_append' = overlay_update environ_append cleared /\
    s' = State m (World (os_environ w) d' (trace w ++ [EvWrite cross_filename text])).
Proof.
  intros m w. subst m w. split.
  - destruct s as [m [env d tr]]. simpl.
    unfold cross_file_text, _configure_cross_compile, cpu_translate_item, format_text_of,
      on_world, on_disk, emit, modify.
    unfold bind, gets, ret, raise. simpl.
    intros Hrun.
    repeat (case_match; simplify_eq/=).
    all: rewrite ?build_machine_text_lines, ?host_machine_text_lines in *; simplify_eq/=.
    all: eexists _, _, _; repeat split; try done.
    all: by match goal with u : () |- _ => destruct u end.
  - intros (libdir & text & d' & Hlib & Htext & Hw & -> & ->).
    rewrite (cross_file_written _ _ _ libdir text) by done. by rewrite Hw.
Qed.

End CrossText.

(** ** [configure] without a cross file, and the overrides *)

Lemma dict_get_app {V : Type} (k : string) (d1 d2 : list (string * V)) :
  Dict.get k (d1 ++ d2) =
    match Dict.get k d1 with
    | Some v => Some v
    | None => Dict.get k d2
    end.
Proof.
  induction d1 as [|[k' v'] d1 IH]; simpl; [done|].
  by destruct (String.eqb k k').
Qed.

Lemma dict_get_set {V : Type} (k k' : string) (v : V) (d : list (string * V)) :
  Dict.get k (Dict.set k' v d) = if String.eqb k k' then Some v else Dict.get k d.
Proof.
  destruct (String.eqb k k') eqn:E.
  - apply String.eqb_eq in E. subst k'. apply dict_get_set_eq.
  - apply dict_get_set_ne. intros ->. by rewrite String.eqb_refl in E.
Qed.

(** The value an update leaves under a key: the one of the key's last
    item, or without such an item the value of before. *)
Lemma dict_get_update {V : Type} (k : string) (items d : list (string * V)) :
  Dict.get k (Dict.update d items) =
    match Dict.get k (rev items) with
    | Some v => Some v
    | None => Dict.get k d
    end.
Proof.
  unfold Dict.update. revert d.
  induction items as [|[k' v'] items IH]; intros d; simpl; [done|].
  rewrite IH, dict_get_app, dict_get_set. simpl.
  destruct (Dict.get k (rev items)); [done|]. by destruct (String.eqb k k').
Qed.

Lemma dict_keys_set {V : Type} (k : string) (v : V) (d : list (string * V)) :
  exists new, map fst (Dict.set k v d) = map fst d ++ new.
Proof.
  induction d as [|[k' v'] d [new IH]]; simpl.
  - by exists [k].
  - destruct (String.eqb k k') eqn:E.
    + apply String.eqb_eq in E. subst k'. exists []. by rewrite app_nil_r.
    + exists new. simpl. by rewrite IH.
Qed.

Lemma dict_keys_update {V : Type} (items d : list (string * V)) :
  exists new, map fst (Dict.update d items) = map fst d ++ new.
Proof.
  unfold Dict.update. revert d.
  induction items as [|[k v] items IH]; intros d; simpl.
  - exists []. by rewrite app_nil_r.
  - destruct (IH (Dict.set k v d)) as [new1 ->].
    destruct (dict_keys_set k v d) as [new2 ->].
    exists (new2 ++ new1). by rewrite app_assoc.
Qed.

Section ConfigureMore.

Context {Disk : Type} `{Imports Disk}.

#[local] Opaque _configure_cross_compile _run meson_command _get_dirs
  pkg_config_path_value Dict.update _build.

(** X13. [configure] without a cross file (no cross building, or
    [no_generated_cross_file]), when the directories resolve, the
    pkg-config path is computed, [mkdir] returns and no vcvars are
    needed: it writes no file and passes no [--cross-file]; it runs the
    one meson command inside two layers, the overlay that holds
    PKG_CONFIG_PATH alone and the autotools variables over it; its
    outcome is the command's, the process environment is the one of
    before and the adapter holds the merged options and the build
    directory. *)
Theorem configure_without_cross_file (args : option (list string))
    (defs : option (list (string * string)))
    (source_dir build_dir_arg : option string) (pkg_config_paths : option (list string))
    (cache_build_folder build_folder source_folder : option string)
    (no_generated_cross_file : bool) (s : state Disk)
    (src bld pc : option string) :
  let cf := _conanfile (self s) in
  let m1 := set_options (Dict.update (options (self s)) (default [] defs)) (self s) in
  let m2 := set_build_dir bld m1 in
  let w := outside s in
  ConanFile.should_configure cf = true ->
  cross_building (ConanFile.settings cf) && negb no_generated_cross_file = false ->
  _get_dirs m1 source_folder build_folder source_dir build_dir_arg cache_build_folder
    = Ok (src, bld) ->
  pkg_config_path_value cf pkg_config_paths = Ok pc ->
  fst (mkdir bld (disk w)) = Ok tt ->
  _vcvars_needed (self s) = false ->
  let overlay : gmap string (option string) := {["PKG_CONFIG_PATH" := pc]} in
  let env := build_env m2 (apply_overlay overlay (os_environ w)) in
  let command := meson_command m2 src None (default [] args) in
  let d1 := snd (mkdir bld (disk w)) in
  configure args defs source_dir build_dir_arg pkg_config_paths cache_build_folder
    build_folder source_folder no_generated_cross_file s =
  (fst (conanfile_run command env d1),
   State m2
     (World (os_environ w) (snd (conanfile_run command env d1))
        (trace w ++
         [EvEnter overlay false;
          EvEnter (autotools_vars cf (apply_overlay overlay (os_environ w))) false;
          EvRun command env; EvLeave; EvLeave]))).
Proof.
  destruct s as [m [env0 d tr]]. simpl.
  intros Hflag Hcross Hdirs Hpc Hmk Hvc.
  unfold configure. unfold bind at 1. unfold gets at 1. simpl. rewrite Hflag. simpl.
  unfold bind, gets, modify, ret, raise, on_world, on_disk. simpl.
  rewrite Hdirs. simpl. rewrite Hpc. simpl.
  destruct (mkdir bld d) as [[[]|e] d1]; simpl in *; [|done].
  rewrite Hcross. simpl.
  unfold environment_append, with_environment. simpl.
  rewrite _run_eq. cbn [self outside os_environ disk trace].
  change (_vcvars_needed (set_build_dir bld (set_options _ m))) with (_vcvars_needed m).
  rewrite Hvc, _build_eq. simpl.
  by rewrite <- !app_assoc.
Qed.

(** X14. An enabled [configure] merges the overrides into the options
    whatever its outcome: afterwards a key of [defs] has the value of
    its last item there, every other key has the value it had, and the
    keys of before keep their places, new ones coming after them. *)
Theorem configure_merges_overrides (args : option (list string))
    (defs : option (list (string * string)))
    (source_dir build_dir_arg : option string) (pkg_config_paths : option (list string))
    (cache_build_folder build_folder source_folder : option string)
    (no_generated_cross_file : bool) (s : state Disk) :
  ConanFile.should_configure (_conanfile (self s)) = true ->
  let s' := snd (configure args defs source_dir build_dir_arg pkg_config_paths
                   cache_build_folder build_folder source_folder no_generated_cross_file s) in
  (forall k,
     Dict.get k (options (self s')) =
       match Dict.get k (rev (default [] defs)) with
       | Some v => Some v
       | None => Dict.get k (options (self s))
       end) /\
  exists new, map fst (options (self s')) = map fst (options (self s)) ++ new.
Proof.
  intros Hflag s'. subst s'.
  destruct (configure _ _ _ _ _ _ _ _ _ s) as [r s'] eqn:Hrun. simpl.
  apply configure_inv in Hrun; [|done].
  assert (options (self s') = Dict.update (options (self s)) (default [] defs)) as ->.
  { destruct Hrun as [(e & _ & _ & ->)|(src & bld & _ & -> & _)]; done. }
  split; [intros k; apply dict_get_update|apply dict_keys_update].
Qed.


End ConfigureMore.

(** ** The version of the installed meson *)

Lemma append_empty (s : string) : s +:+ EmptyString = s.
Proof.
  induction s as [|c s IH]; [done|].
  change (String c (s +:+ EmptyString) = String c s). by rewrite IH.
Qed.

Lemma split1_whole (sep : ascii) (s : string) :
  Py.contains sep s = false -> split1 sep s = [s].
Proof.
  induction s as [|c s IH]; simpl; [done|].
  rewrite (Ascii.eqb_sym sep c). destruct (Ascii.eqb c sep); simpl; [done|].
  intros Hs. by rewrite IH.
Qed.

Lemma split1_cut (sep : ascii) (a b : string) :
  Py.contains sep a = false -> split1 sep (a +:+ String sep b) = [a; b].
Proof.
  induction a as [|c a IH].
  - intros _. change (split1 sep (String sep b) = [EmptyString; b]).
    simpl. by rewrite Ascii.eqb_refl.
  - change (Py.contains sep (String c a) = false ->
            split1 sep (String c (a +:+ String sep b)) = [String c a; b]).
    simpl. rewrite (Ascii.eqb_sym sep c). destruct (Ascii.eqb c sep); simpl; [done|].
    intros Ha. by rewrite IH.
Qed.

Lemma rsplit1_whole (sep : ascii) (s : string) :
  Py.contains sep s = false -> rsplit1 sep s = [s].
Proof.
  induction s as [|c s IH]; simpl; [done|].
  rewrite (Ascii.eqb_sym sep c). destruct (Ascii.eqb c sep) eqn:E; simpl; [done|].
  intros Hs. by rewrite IH.
Qed.

Lemma rsplit1_cut (sep : ascii) (a b : string) :
  Py.contains sep b = false -> rsplit1 sep (a +:+ String sep b) = [a; b].
Proof.
  intros Hb. induction a as [|c a IH].
  - change (rsplit1 sep (String sep b) = [EmptyString; b]).
    simpl. rewrite rsplit1_whole by done. by rewrite Ascii.eqb_refl.
  - change (rsplit1 sep (String c (a +:+ String sep b)) = [String c a; b]).
    simpl. by rewrite IH.
Qed.

Lemma version_text_of_line (line v tail : string) :
  Py.contains newline line = false ->
  Py.contains " "%char v = false ->
  (line = v \/ exists pre, line = pre +:+ String " "%char v) ->
  (tail = EmptyString \/ exists rest, tail = String newline rest) ->
  version_text (line +:+ tail) = v.
Proof.
  intros Hline Hv Hshape Htail. unfold version_text.
  assert (hd EmptyString (split1 newline (line +:+ tail)) = line) as ->.
  { destruct Htail as [->|[r ->]].
    - by rewrite append_empty, split1_whole.
    - by rewrite split1_cut. }
  destruct Hshape as [->|[pre ->]].
  - by rewrite rsplit1_whole.
  - by rewrite rsplit1_cut.
Qed.

Section GetVersionProperties.

Context {Bytes Version : Type}.

Variable version_runner : list string -> result Bytes.
Variable decode_text : Bytes -> result string.
Variable Version_new : string -> result Version.
Variable repr_non_ascii : string -> string.


(** X17. The version [get_version] hands to [Version] is the last word
    of the first line of the output: when the first line is [v], or
    ends in a space followed by [v], where [v] holds no space, the
    result is that of [Version(v)], whatever follows the line. *)
Theorem get_version_reads_last_word (out : Bytes) (line tail v : string) :
  version_runner ["meson"; "--version"] = Ok out ->
  decode_text out = Ok (line +:+ tail) ->
  Py.contains newline line = false ->
  (tail = EmptyString \/ exists rest, tail = String newline rest) ->
  Py.contains " "%char v = false ->
  (line = v \/ exists pre, line = pre +:+ String " "%char v) ->
  get_version version_runner decode_text Version_new repr_non_ascii =
    match Version_new v with
    | Ok version => Ok version
    | Raise e =>
        Raise (ConanException ("Error retrieving Meson version: '" +:+
                               exn_str repr_non_ascii e +:+ "'"))
    end.
Proof.
  intros Hrun Hdec Hline Htail Hv Hshape.
  unfold get_version, get_version_body. rewrite Hrun, Hdec.
  change (List.last _ _) with (version_text (line +:+ tail)).
  by rewrite (version_text_of_line line v tail).
Qed.

End GetVersionProperties.

(** ** The rest of the helper on concrete inputs *)

Lemma disabled_phase_does_nothing_witness :
  let s := Samples.idle_state in
  configure (H := Demo.posix) None None None None None None None None false s = (Ok tt, s) /\
  build (H := Demo.posix) None None None s = (Ok tt, s) /\
  (install (H := Demo.posix) None None s = (Ok tt, s) /\
   meson_install (H := Demo.posix) None None s = (Ok tt, s)) /\
  (test (H := Demo.posix) None None None s = (Ok tt, s) /\
   meson_test (H := Demo.posix) None None s = (Ok tt, s)).
Proof.
  intros s.
  destruct (disabled_phase_does_nothing (H := Demo.posix) None None None None None None None
              None false None s) as (Hconfigure & Hbuild & Hinstall & Htest).
  split; [apply Hconfigure; compute_eq|].
  split; [apply Hbuild; compute_eq|].
  split; [apply Hinstall; compute_eq|apply Htest; compute_eq].
Defined.

Lemma configure_rejects_both_directory_styles_witness :
  let s := Demo.cross_state in
  configure (H := Demo.cross) None (Some [("k", "v")]) None (Some "out") None None None
    (Some "src") false s =
  (Raise conflicting_directories,
   State (set_options (Dict.update (options (self s)) (default [] (Some [("k", "v")]))) (self s))
     (outside s)).
Proof.
  intros s. apply (configure_rejects_both_directory_styles (H := Demo.cross)); compute_eq.
Defined.

Lemma __init___adapter_witness :
  let m := Samples.full_adapter in
  options m =
    [("prefix", "/pkg"); ("libdir", "lib"); ("bindir", "bin"); ("sbindir", "bin");
     ("libexecdir", "bin"); ("includedir", "include"); ("cpp_std", "gnu++17");
     ("default_library", "static"); ("b_staticpic", "true")] /\
  build_dir m = None /\ backend m = "ninja" /\ _build_type m = Some "Debug" /\
  trace (snd Samples.full_init) =
    [EvWarn ("Set build type " +:+ Py.dq +:+ "Debug" +:+ Py.dq +:+
             " is different than the settings build_type " +:+ Py.dq +:+ "Release" +:+ Py.dq)].
Proof.
  intros m.
  destruct (__init___adapter (H := Demo.posix) Samples.full_conanfile None (Some "Debug") false
              None (Demo.world0 ∅) m (snd Samples.full_init) ltac:(compute_eq))
    as (Hoptions & Hdir & Hbackend & _ & _ & _ & _ & _ & _ & Hbt & Hworld).
  split; [rewrite Hoptions; compute_eq|].
  split; [exact Hdir|].
  split; [rewrite Hbackend; compute_eq|].
  split; [rewrite Hbt; compute_eq|].
  rewrite Hworld. compute_eq.
Defined.

Lemma __init___raises_only_for_cppstd_witness :
  __init__ (H := Demo.posix) Samples.odd_conanfile None None false None (Demo.world0 ∅) =
    (Raise (KeyError "23"), World ∅ [] [EvWarn "compiler setting should be defined."]) /\
  __init__ (H := Demo.posix) Samples.torn_conanfile None None false None (Demo.world0 ∅) =
    (Raise (ConanException
              "The specified 'compiler.cppstd=17' and 'cppstd=14' are different."),
     Demo.world0 ∅) /\
  exists m w',
    __init__ (H := Demo.posix) Demo.native_conanfile None None false None (Demo.world0 ∅)
      = (Ok m, w').
Proof.
  split; [|split].
  - etransitivity.
    + apply (proj1 (__init___raises_only_for_cppstd (H := Demo.posix)
                      Samples.odd_conanfile None None false None (Demo.world0 ∅))
               (KeyError "23")).
      compute_eq.
    + compute_eq.
  - etransitivity.
    + apply (proj1 (__init___raises_only_for_cppstd (H := Demo.posix)
                      Samples.torn_conanfile None None false None (Demo.world0 ∅))
               (ConanException
                  "The specified 'compiler.cppstd=17' and 'cppstd=14' are different.")).
      compute_eq.
    + compute_eq.
  - apply (proj2 (__init___raises_only_for_cppstd (H := Demo.posix)
                    Demo.native_conanfile None None false None (Demo.world0 ∅))).
    compute_eq.
Defined.

Lemma ninja_phase_commands_witness :
  let s := Samples.native_state in
  commands_run (trace (outside (snd (build (H := Demo.posix) (Some ["-j4"]) None None s)))) =
    commands_run (trace (outside s)) ++
    [ninja_command (H := Demo.posix) (self s) (Some ["-j4"]) None None] /\
  commands_run (trace (outside (snd (test (H := Demo.posix) None None (Some []) s)))) =
    commands_run (trace (outside s)) ++
    [ninja_command (H := Demo.posix) (self s) None None (Some ["test"])].
Proof.
  intros s. split.
  - apply (proj1 (ninja_phase_commands (H := Demo.posix) (Some ["-j4"]) None None s
                    ltac:(compute_eq) ltac:(compute_eq))).
    compute_eq.
  - apply (proj2 (ninja_phase_commands (H := Demo.posix) None None (Some []) s
                    ltac:(compute_eq) ltac:(compute_eq))).
    compute_eq.
Defined.

Lemma meson_phases_ignore_backend_witness :
  let s := Demo.vs_state in
  backend (self s) = "vs" /\
  commands_run (trace (outside (snd (meson_install (H := Demo.posix) None None s)))) =
    commands_run (trace (outside s)) ++
    [meson_subcommand (H := Demo.posix) (self s) "install" None None] /\
  commands_run (trace (outside (snd (meson_test (H := Demo.posix) None (Some "/out") s)))) =
    commands_run (trace (outside s)) ++
    [meson_subcommand (H := Demo.posix) (self s) "test" None (Some "/out")].
Proof.
  intros s. split; [compute_eq|]. split.
  - apply (proj1 (meson_phases_ignore_backend (H := Demo.posix) None None s
                    ltac:(compute_eq))).
    compute_eq.
  - apply (proj2 (meson_phases_ignore_backend (H := Demo.posix) None (Some "/out") s
                    ltac:(compute_eq))).
    compute_eq.
Defined.

Lemma install_cases_witness :
  let s := Samples.native_state in
  install (H := Demo.posix) None None s =
    _run_ninja_targets (H := Demo.posix) None None (Some ["install"])
      (after_mkdir (H := Demo.posix) (ConanFile.package_folder (_conanfile (self s))) s).
Proof.
  intros s.
  apply (proj2 (proj2 (install_cases (H := Demo.posix) None None s ltac:(compute_eq))));
    compute_eq.
Defined.

Lemma vcvars_error_stops_phases_witness :
  let s := Demo.msvc_state in
  build (H := Samples.no_visual_studio) None None None s =
    (Raise Samples.vcvars_error, warned_build_type s) /\
  meson_install (H := Samples.no_visual_studio) None None s = (Raise Samples.vcvars_error, s).
Proof.
  intros s.
  destruct (vcvars_error_stops_phases (H := Samples.no_visual_studio) None None None s
              Samples.vcvars_error ltac:(compute_eq) ltac:(compute_eq))
    as (Hbuild & _ & Hinstall).
  split; [apply Hbuild; compute_eq|apply Hinstall; compute_eq].
Defined.

Lemma _configure_cross_compile_key_error_witness :
  _configure_cross_compile (H := Demo.cross) "/build/cross_file.txt"
    {["PKG_CONFIG_PATH" := Some "/install"]} Samples.riscv_state =
  (Raise (KeyError "riscv64"), Samples.riscv_state).
Proof.
  apply (_configure_cross_compile_key_error (H := Demo.cross)). compute_eq.
Defined.

Lemma cross_file_content_witness :
  let s := Demo.cross_state in
  let environ_append : gmap string (option string) :=
    {["PKG_CONFIG_PATH" := Some "/install"]} in
  exists libdir text d',
    environ_append !! "PKG_CONFIG_PATH" = Some libdir /\
    cross_file_text (H := Demo.cross) (self s) (os_environ (outside s)) libdir = Some text /\
    write_file (Imports := Demo.cross) "/build/cross_file.txt" text (disk (outside s))
      = (Ok tt, d') /\
    overlay_update environ_append cleared = overlay_update environ_append cleared /\
    snd Demo.cross_synthesis =
      State (self s)
        (World (os_environ (outside s)) d'
           (trace (outside s) ++ [EvWrite "/build/cross_file.txt" text])).
Proof.
  intros s environ_append.
  apply (proj1 (cross_file_content (H := Demo.cross) "/build/cross_file.txt" environ_append s
                  (overlay_update environ_append cleared) (snd Demo.cross_synthesis))).
  compute_eq.
Defined.

Lemma configure_without_cross_file_witness :
  let s := Samples.native_state in
  let m2 := set_build_dir (Some "/build")
              (set_options (Dict.update (options (self s)) [("k", "v")]) (self s)) in
  let overlay : gmap string (option string) := {["PKG_CONFIG_PATH" := Some "/install"]} in
  let env := build_env (H := Demo.posix) m2 (apply_overlay overlay ∅) in
  let command := meson_command (H := Demo.posix) m2 (Some "/src") None ["--werror"] in
  configure (H := Demo.posix) (Some ["--werror"]) (Some [("k", "v")]) None None None None
    None None false s =
  (Ok tt,
   State m2
     (World ∅ ["/build"]
        [EvEnter overlay false;
         EvEnter (autotools_vars (Imports := Demo.posix) Demo.native_conanfile
                    (apply_overlay overlay ∅)) false;
         EvRun command env; EvLeave; EvLeave])).
Proof.
  intros s m2 overlay env command.
  etransitivity.
  - apply (configure_without_cross_file (H := Demo.posix) (Some ["--werror"])
             (Some [("k", "v")]) None None None None None None false s
             (Some "/src") (Some "/build") (Some "/install")); compute_eq.
  - compute_eq.
Defined.

Lemma configure_merges_overrides_witness :
  let s := Samples.native_state in
  let defs := [("libdir", "lib64"); ("werror", "true"); ("libdir", "lib32")] in
  let s' := snd (configure (H := Demo.posix) None (Some defs) None None None None None None
                   false s) in
  Dict.get "libdir" (options (self s)) = Some "lib" /\
  Dict.get "libdir" (options (self s')) = Some "lib32" /\
  Dict.get "werror" (options (self s')) = Some "true" /\
  Dict.get "bindir" (options (self s')) = Some "bin" /\
  exists new, map fst (options (self s')) = map fst (options (self s)) ++ new.
Proof.
  intros s defs s'.
  destruct (configure_merges_overrides (H := Demo.posix) None (Some defs) None None None None
              None None false s ltac:(compute_eq)) as [Hget Hkeys].
  subst s'.
  split; [compute_eq|].
  split; [rewrite (Hget "libdir"); compute_eq|].
  split; [rewrite (Hget "werror"); compute_eq|].
  split; [rewrite (Hget "bindir"); compute_eq|].
  exact Hkeys.
Defined.



Lemma get_version_reads_last_word_witness :
  get_version Samples.runner_ok Samples.decode Samples.version_new
    (repr_non_ascii (Imports := Demo.posix)) =
    match Samples.version_new "0.55.3" with
    | Ok version => Ok version
    | Raise e =>
        Raise (ConanException ("Error retrieving Meson version: '" +:+
                               exn_str (repr_non_ascii (Imports := Demo.posix)) e +:+ "'"))
    end.
Proof.
  apply (get_version_reads_last_word Samples.runner_ok Samples.decode Samples.version_new
           (repr_non_ascii (Imports := Demo.posix)) Samples.version_output "0.55.3" (String newline EmptyString) "0.55.3").
  - reflexivity.
  - reflexivity.
  - compute_eq.
  - right. exists EmptyString. reflexivity.
  - compute_eq.
  - left. reflexivity.
Defined.
